(** * Price-comparison agents: a model of [app.py] and its properties

  The development follows the three agents of [app.py]:
  [ScraperAgent] (collector, extractor and mock generator),
  [AnalyzerAgent] (classifier) and [ReportAgent] (reporter).

  Modelling conventions.
  - A Python [float] is an exact rational ([Q]): sums, quotients and
    comparisons are the mathematical ones, and a float division by zero
    raises [ZeroDivisionError] as in Python.  Rounding of binary
    floating point, infinities and NaN are outside the model.
  - A Python [str] is a [string] of 8-bit characters; only the ASCII
    character classes (digits, letters, white space) are interpreted.
  - Exceptions are values of [exn]; a computation that may raise returns
    a [result].
  - Python lists handed from one agent to the next are objects of a
    heap, addressed by location, so that in-place updates and aliasing
    are visible.  Records ([ProductData], [DealAnalysis]) are values:
    no statement of [app.py] assigns to an attribute outside [__init__].
  - The clock, the random generator and the HTTP session are oracles of
    an environment; the world counts how often each has been consulted.
  - [print] only writes to the console: the progress messages of the
    agents are not modelled; the lines [display_report] prints are the
    result of its model.
  - Standard input and the files written are the state [Os] of [main];
    the formatting of dates and the success of [open] are parameters.
  - [ProductData.to_dict] has no caller and is not modelled. *)

From Stdlib Require Import QArith Qabs ZArith String Ascii List Lia Lqa
Sorted Permutation.
From stdpp Require Import base option list gmap strings pretty.

Open Scope string_scope.

(** ** Numbers *)

Module Num.

(** Nearest integer, ties to the even one: the rounding of [round] and
    of the [f] format on an exactly represented value. *)
Definition round_half_even (q : Q) : Z :=
  let n := Qnum q in
  let d := Zpos (Qden q) in
  let fl := (n / d)%Z in
  let r2 := (2 * (n mod d))%Z in
  if (r2 <? d)%Z then fl
  else if (d <? r2)%Z then (fl + 1)%Z
  else if Z.even fl then fl else (fl + 1)%Z.

Definition pow10 (k : nat) : Z := (10 ^ Z.of_nat k)%Z.

(** [round(x, ndigits)] for a non-negative [ndigits]. *)
Definition round (x : Q) (ndigits : nat) : Q :=
  Qmake (round_half_even (x * inject_Z (pow10 ndigits)))
        (Z.to_pos (pow10 ndigits)).

Fixpoint zeros (k : nat) : string :=
  match k with
  | O => ""
  | S k' => String "0" (zeros k')
  end.

Definition pad_left (width : nat) (s : string) : string :=
  zeros (width - String.length s) ++ s.

Definition Qltb (x y : Q) : bool := negb (Qle_bool y x).

(** The format specification [:.<prec>f]: sign, integer part, and
    [prec] decimals of the value rounded half-even. *)
Definition format_f (prec : nat) (x : Q) : string :=
  let m := round_half_even (Qabs x * inject_Z (pow10 prec)) in
  let sign := if Qltb x 0 then "-" else "" in
  let ip := pretty (m / pow10 prec)%Z in
  match prec with
  | O => sign ++ ip
  | S _ => sign ++ ip ++ "." ++ pad_left prec (pretty (m mod pow10 prec)%Z)
  end.

End Num.

(** ** Strings *)

Module Str.

Definition code (c : ascii) : nat := nat_of_ascii c.

Definition between (lo hi : nat) (c : ascii) : bool :=
  (lo <=? code c)%nat && (code c <=? hi)%nat.

(** [\d] on ASCII text. *)
Definition is_digit (c : ascii) : bool := between 48 57 c.

(** The characters removed by [str.strip()]: TAB, LF, VT, FF, CR,
    FS, GS, RS, US and the space. *)
Definition is_space (c : ascii) : bool :=
  between 9 13 c || between 28 32 c.

Definition lower_char (c : ascii) : ascii :=
  if between 65 90 c then ascii_of_nat (code c + 32) else c.

(** [str.lower()]. *)
Fixpoint lower (s : string) : string :=
  match s with
  | EmptyString => EmptyString
  | String c s' => String (lower_char c) (lower s')
  end.

Fixpoint starts_with (p s : string) : bool :=
  match p, s with
  | EmptyString, _ => true
  | String a p', String b s' => Ascii.eqb a b && starts_with p' s'
  | String _ _, EmptyString => false
  end.

(** [p in s]. *)
Fixpoint contains (p s : string) : bool :=
  starts_with p s ||
  match s with
  | EmptyString => false
  | String _ s' => contains p s'
  end.

(** [re.compile('a|b|...', re.I).search(s)] for literal alternatives,
    given in lower case. *)
Definition re_search_i (alternatives : list string) (s : string) : bool :=
  existsb (fun p => contains p (lower s)) alternatives.

(** Longest prefix of characters satisfying [p], and the rest. *)
Fixpoint span (p : ascii -> bool) (s : string) : string * string :=
  match s with
  | EmptyString => (EmptyString, EmptyString)
  | String c s' =>
      if p c then let (a, b) := span p s' in (String c a, b)
      else (EmptyString, s)
  end.

Definition lstrip (s : string) : string := snd (span is_space s).

Fixpoint rstrip (s : string) : string :=
  match s with
  | EmptyString => EmptyString
  | String c s' =>
      match rstrip s' with
      | EmptyString => if is_space c then EmptyString else String c EmptyString
      | r => String c r
      end
  end.

(** [str.strip()]. *)
Definition strip (s : string) : string := rstrip (lstrip s).

(** [str.split(sep)] for a one-character separator. *)
Fixpoint split (sep : ascii) (s : string) : list string :=
  match s with
  | EmptyString => [EmptyString]
  | String c s' =>
      if Ascii.eqb c sep then EmptyString :: split sep s'
      else match split sep s' with
           | h :: t => String c h :: t
           | [] => [String c EmptyString]
           end
  end.

(** [str.replace(old, new)] for a non-empty [old]: occurrences are
    replaced from left to right without overlap.  [skip] counts the
    characters of a replaced occurrence still to be dropped. *)
Fixpoint replace_from (old new s : string) (skip : nat) : string :=
  match s with
  | EmptyString => EmptyString
  | String c s' =>
      match skip with
      | S k => replace_from old new s' k
      | O =>
          if starts_with old s
          then new ++ replace_from old new s' (String.length old - 1)
          else String c (replace_from old new s' 0)
      end
  end.

Definition replace (old new s : string) : string :=
  replace_from old new s 0.

Definition is_digit_or_comma (c : ascii) : bool :=
  is_digit c || Ascii.eqb c ",".

(** The match of [[\d,]+\.?\d*] anchored at the start of [s], which
    begins with a digit or a comma.  Each quantifier is greedy and every
    later part may match the empty string, so no backtracking occurs. *)
Definition price_match_here (s : string) : string :=
  let (run, rest) := span is_digit_or_comma s in
  match rest with
  | String "." rest' => run ++ "." ++ fst (span is_digit rest')
  | _ => run
  end.

(** [re.search(r'[\d,]+\.?\d*', s)]: the leftmost match, or [None]. *)
Fixpoint price_search (s : string) : option string :=
  match s with
  | EmptyString => None
  | String c s' =>
      if is_digit_or_comma c then Some (price_match_here s)
      else price_search s'
  end.

Definition digit_value (c : ascii) : Z := Z.of_nat (code c - 48).

(** Value of a run of decimal digits, most significant first. *)
Fixpoint digits_value (acc : Z) (s : string) : Z :=
  match s with
  | EmptyString => acc
  | String c s' => digits_value (10 * acc + digit_value c)%Z s'
  end.

Fixpoint all_chars (p : ascii -> bool) (s : string) : bool :=
  match s with
  | EmptyString => true
  | String c s' => p c && all_chars p s'
  end.

End Str.

(** ** Exceptions and results *)

Inductive exn : Type :=
| ZeroDivisionError
| AttributeError
| ValueError
| IndexError
| TypeError
| RequestException.

Inductive result (A : Type) : Type :=
| Ok (a : A)
| Raise (e : exn).

Arguments Ok {A} a.
Arguments Raise {A} e.

(** [float(s)] on the texts the extractor passes to it: decimal digits
  with at most one point.  At least one digit is required; anything
  else raises [ValueError]. *)
Definition float_of_string (s : string) : result Q :=
let (ip, rest) := Str.span Str.is_digit s in
match rest with
| EmptyString =>
    match ip with
    | EmptyString => Raise ValueError
    | _ => Ok (inject_Z (Str.digits_value 0 ip))
    end
| String "." fp =>
    if Str.all_chars Str.is_digit fp
       && negb (String.eqb ip EmptyString && String.eqb fp EmptyString)
    then Ok (Qmake (Str.digits_value 0 (ip ++ fp))
                   (Z.to_pos (Num.pow10 (String.length fp))))
    else Raise ValueError
| _ => Raise ValueError
end.

(** ** Data classes *)

Record ProductData : Type := mkProductData {
store : string;
product_name : string;
price : Q;
url : string;
scraped_at : Z;
additional_info : list (string * string)
}.

(** The four literals assigned to [deal_quality]. *)
Inductive DealQuality : Type := EXCELLENT | GOOD | AVERAGE | POOR.

Record DealAnalysis : Type := mkDealAnalysis {
product : ProductData;
is_good_deal : bool;
reasoning : string;
average_price : Q;
price_difference : Q;
deal_quality : DealQuality
}.

(** Heap locations of list objects. *)
Definition loc := nat.

(** [analyses] is the list object handed to [Report.__init__], not a
  copy of it. *)
Record Report : Type := mkReport {
analyses : loc;
generated_at : Z;
summary : string
}.

(** ** Document trees

  The part of a parsed BeautifulSoup tree the scraper looks at: tags
  with their name, the values of their [class] attribute (empty when
  the attribute is absent) and their children, and text nodes. *)

#[warnings="-register-all"]
Inductive Node : Type :=
| Tag (name : string) (class_ : list string) (contents : list Node)
| NavigableString (text : string).

Module Soup.

(** [tag.descendants]: every node below [n], in document order. *)
Fixpoint descendants (n : Node) : list Node :=
  match n with
  | Tag _ _ cs =>
      (fix go (l : list Node) : list Node :=
         match l with
         | [] => []
         | c :: l' => (c :: descendants c ++ go l')%list
         end) cs
  | NavigableString _ => []
  end.

(** A search filter: a list of admissible tag names (or any tag), and a
    case-insensitive pattern of literal alternatives for the [class_]
    keyword (or none).  A pattern without white space is found in some
    value of the attribute exactly when it is found in their
    space-separated concatenation, so the values are tried one by one. *)
Record Filter : Type := mkFilter {
  names : option (list string);
  class_re : option (list string)
}.

Definition matches (f : Filter) (n : Node) : bool :=
  match n with
  | NavigableString _ => false
  | Tag nm cls _ =>
      match names f with
      | None => true
      | Some l => existsb (String.eqb nm) l
      end
      &&
      match class_re f with
      | None => true
      | Some alts => existsb (Str.re_search_i alts) cls
      end
  end.

(** [tag.find_all(...)]. *)
Definition find_all (n : Node) (f : Filter) : list Node :=
  List.filter (matches f) (descendants n).

(** [tag.find(...)]: the first match, or [None]. *)
Definition find (n : Node) (f : Filter) : option Node :=
  head (find_all n f).

(** The text nodes below (or at) [n], in document order. *)
Fixpoint strings (n : Node) : list string :=
  match n with
  | NavigableString t => [t]
  | Tag _ _ cs =>
      (fix go (l : list Node) : list string :=
         match l with
         | [] => []
         | c :: l' => (strings c ++ go l')%list
         end) cs
  end.

Definition nonempty (s : string) : bool := negb (String.eqb s EmptyString).

(** [tag.get_text(strip=True)]: every text node stripped, the empty
    ones dropped, the rest joined without separator. *)
Definition get_text_strip (n : Node) : string :=
  String.concat EmptyString (List.filter nonempty (map Str.strip (strings n))).

End Soup.

(** ** The world: heap, clock, random generator, HTTP session *)

Inductive PyList : Type :=
| UrlList (urls : list string)
| ProductList (products : list ProductData)
| AnalysisList (items : list DealAnalysis).

Record World : Type := mkWorld {
  heap : gmap loc PyList;
  clock : nat;
  draws : nat;
  requests : list string
}.

(** The collaborators.  [time_at k] is the reading of the [k]-th call of
    [datetime.now()], [random_at k] the [k]-th value of
    [random.random()], and [http_get k u] the outcome of the [k]-th
    request, for URL [u]: the parsed document, or the exception raised by
    [session.get], [raise_for_status] or the parser. *)
Record Env : Type := mkEnv {
  time_at : nat -> Z;
  random_at : nat -> Q;
  http_get : nat -> string -> result Node
}.

(** Computations: a result and the world afterwards.  A raised
    exception keeps the effects performed before it. *)
Definition M (A : Type) : Type := World -> result A * World.

#[global] Instance M_ret : MRet M := fun A a w => (Ok a, w).

#[global] Instance M_bind : MBind M := fun A B f m w =>
  match m w with
  | (Ok a, w') => f a w'
  | (Raise e, w') => (Raise e, w')
  end.

Definition lift {A : Type} (r : result A) : M A := fun w => (r, w).

(** [try: body  except: handler]. *)
Definition try_except {A : Type} (body : M A) (handler : exn -> M A) : M A :=
  fun w =>
    match body w with
    | (Ok a, w') => (Ok a, w')
    | (Raise e, w') => handler e w'
    end.

Definition set_heap (h : gmap loc PyList) (w : World) : World :=
  mkWorld h (clock w) (draws w) (requests w).

(** A new list object, at a location not in use. *)
Definition alloc (v : PyList) : M loc := fun w =>
  let l := fresh (dom (heap w)) in
  (Ok l, set_heap (<[l := v]> (heap w)) w).

(** Reading the list object a parameter refers to.  A caller passes a
    list of the expected kind; a location that holds none stands for an
    ill-typed call, reported as [TypeError]. *)
Definition read_urls (l : loc) : M (list string) := fun w =>
  match heap w !! l with
  | Some (UrlList us) => (Ok us, w)
  | _ => (Raise TypeError, w)
  end.

Definition read_products (l : loc) : M (list ProductData) := fun w =>
  match heap w !! l with
  | Some (ProductList ps) => (Ok ps, w)
  | _ => (Raise TypeError, w)
  end.

Definition read_analyses (l : loc) : M (list DealAnalysis) := fun w =>
  match heap w !! l with
  | Some (AnalysisList xs) => (Ok xs, w)
  | _ => (Raise TypeError, w)
  end.

(** In-place update of the list object at [l]. *)
Definition write (l : loc) (v : PyList) : M unit := fun w =>
  (Ok tt, set_heap (<[l := v]> (heap w)) w).

(** ** Agent 1: [ScraperAgent] *)

Section Agents.

Variable env : Env.

(** [datetime.now()]. *)
Definition datetime_now : M Z := fun w =>
  (Ok (time_at env (clock w)),
   mkWorld (heap w) (S (clock w)) (draws w) (requests w)).

(** [random.random()]. *)
Definition random_random : M Q := fun w =>
  (Ok (random_at env (draws w)),
   mkWorld (heap w) (clock w) (S (draws w)) (requests w)).

(** [random.uniform(a, b)], which is [a + (b - a) * random()]. *)
Definition random_uniform (a b : Q) : M Q :=
  r ← random_random; mret (a + (b - a) * r)%Q.

(** [session.get(url, timeout=10)], [raise_for_status()] and the parse
    of the content: the request is issued, then the document is obtained
    or an exception is raised. *)
Definition session_get (u : string) : M Node := fun w =>
  (http_get env (List.length (requests w)) u,
   mkWorld (heap w) (clock w) (draws w) (requests w ++ [u])).

(** [ProductData.__init__]. *)
Definition new_ProductData (store_ name : string) (price_ : Q) (url_ : string)
  : M ProductData :=
  t ← datetime_now; mret (mkProductData store_ name price_ url_ t []).

Definition heading_filter : Soup.Filter :=
  Soup.mkFilter (Some ["h3"; "h4"; "h2"]) None.

Definition title_link_filter : Soup.Filter :=
  Soup.mkFilter (Some ["a"]) (Some ["title"; "name"]).

Definition price_filter : Soup.Filter :=
  Soup.mkFilter None (Some ["price"]).

(** [x or y] on the results of [find]: a tag is always true, [None] is
    false. *)
Definition or_else {A : Type} (x y : option A) : option A :=
  match x with
  | Some _ => x
  | None => y
  end.

Definition extract_product_info (container : Node)
    (store_name source_url : string) : M (option ProductData) :=
  try_except
    (let name_elem :=
       or_else (Soup.find container heading_filter)
               (Soup.find container title_link_filter) in
     let price_elem := Soup.find container price_filter in
     match name_elem, price_elem with
     | Some name_elem, Some price_elem =>
         let name := Soup.get_text_strip name_elem in
         let price_text := Soup.get_text_strip price_elem in
         match Str.price_search price_text with
         | Some price_match =>
             price_ ← lift (float_of_string (Str.replace "," "" price_match));
             p ← new_ProductData store_name name price_ source_url;
             mret (Some p)
         | None => mret None
         end
     | _, _ => mret None
     end)
    (fun _ => mret None).

Definition container_div_filter : Soup.Filter :=
  Soup.mkFilter (Some ["div"]) (Some ["product"; "item"]).

Definition container_article_filter : Soup.Filter :=
  Soup.mkFilter (Some ["article"]) None.

Definition container_li_filter : Soup.Filter :=
  Soup.mkFilter (Some ["li"]) (Some ["product"; "item"]).

(** [x or y] on lists: the empty list is false. *)
Definition or_list {A : Type} (x y : list A) : list A :=
  match x with
  | [] => y
  | _ => x
  end.

Definition product_containers (soup : Node) : list Node :=
  or_list (Soup.find_all soup container_div_filter)
    (or_list (Soup.find_all soup container_article_filter)
             (Soup.find_all soup container_li_filter)).

(** [url.split('/')[2].replace('www.', '')]. *)
Definition store_name_of (u : string) : result string :=
  match nth_error (Str.split "/" u) 2 with
  | Some host => Ok (Str.replace "www." "" host)
  | None => Raise IndexError
  end.

(** The [for container in ...] loop of [scrape_store], with [products]
    the list built so far.  An exception inside the loop would reach the
    [except Exception] clause of [scrape_store], after which [products]
    is returned as it stands. *)
Fixpoint scrape_loop (containers : list Node) (store_name u : string)
    (products : list ProductData) : M (list ProductData) :=
  fun w =>
    match containers with
    | [] => (Ok products, w)
    | container :: rest =>
        match extract_product_info container store_name u w with
        | (Ok (Some p), w') => scrape_loop rest store_name u (products ++ [p]) w'
        | (Ok None, w') => scrape_loop rest store_name u products w'
        | (Raise _, w') => (Ok products, w')
        end
    end.

Definition scrape_store (u product_query : string) : M (list ProductData) :=
  fun w =>
    match (soup ← session_get u;
           store_name ← lift (store_name_of u);
           mret (soup, store_name)) w with
    | (Raise _, w') => (Ok [], w')
    | (Ok (soup, store_name), w') =>
        scrape_loop (firstn 10 (product_containers soup)) store_name u [] w'
    end.

(** The [for url in urls] loop of [scrape_multiple_stores], with
    [all_products] the list built so far. *)
Fixpoint scrape_urls (urls : list string) (product_query : string)
    (all_products : list ProductData) : M (list ProductData) :=
  fun w =>
    match urls with
    | [] => (Ok all_products, w)
    | u :: rest =>
        match scrape_store u product_query w with
        | (Ok products_, w') =>
            scrape_urls rest product_query (all_products ++ products_) w'
        | (Raise _, w') => scrape_urls rest product_query all_products w'
        end
    end.

(** [urls] is the caller's list object; the result is a new one. *)
Definition scrape_multiple_stores (urls : loc) (product_query : string)
  : M loc :=
  us ← read_urls urls;
  all_products ← scrape_urls us product_query [];
  alloc (ProductList all_products).

Definition mock_stores : list string :=
  ["Amazon"; "Walmart"; "BestBuy"; "Target"; "eBay"].

Definition base_price : Q := 29999 # 100.

(** The [for store in stores] loop of [get_mock_data]. *)
Fixpoint mock_loop (stores : list string) (name : string)
    (products : list ProductData) : M (list ProductData) :=
  match stores with
  | [] => mret products
  | store_ :: rest =>
      variance ← random_uniform (-50) 50;
      let price_ := Num.round (base_price + variance) 2 in
      p ← new_ProductData store_ name price_
            ("https://" ++ Str.lower store_ ++ ".com/product");
      mock_loop rest name (products ++ [p])
  end.

Definition get_mock_data (name : string) : M loc :=
  products ← mock_loop mock_stores name [];
  alloc (ProductList products).

(** ** Agent 2: [AnalyzerAgent] *)

(** [sum(prices)]: the additions run from left to right, from [0]. *)
Definition py_sum (prices : list Q) : Q := fold_left Qplus prices 0%Q.

(** [x / y] on floats. *)
Definition py_div (x y : Q) : result Q :=
  if Qeq_bool y 0 then Raise ZeroDivisionError else Ok (x / y)%Q.

(** The [if]/[elif] chain of [analyze_deals]: [is_good_deal],
    [deal_quality] and [reasoning] for a percentage. *)
Definition classify (percent_diff : Q) : bool * DealQuality * string :=
  if Qle_bool percent_diff (-15) then
    (true, EXCELLENT,
     "Price is " ++ Num.format_f 1 (Qabs percent_diff)
       ++ "% below average - exceptional deal!")
  else if Qle_bool percent_diff (-5) then
    (true, GOOD,
     "Price is " ++ Num.format_f 1 (Qabs percent_diff)
       ++ "% below average - good value.")
  else if Qle_bool percent_diff 5 then
    (false, AVERAGE,
     "Price is close to market average (" ++ Num.format_f 1 percent_diff
       ++ "%).")
  else
    (false, POOR,
     "Price is " ++ Num.format_f 1 percent_diff
       ++ "% above average - not recommended.").

(** [(price_diff / avg_price) * 100]. *)
Definition percent_of (price_diff avg_price : Q) : result Q :=
  match py_div price_diff avg_price with
  | Ok d => Ok (d * 100)%Q
  | Raise e => Raise e
  end.

(** One iteration of the [for product in products] loop. *)
Definition analyze_product (avg_price : Q) (p : ProductData)
  : result DealAnalysis :=
  let price_diff := (price p - avg_price)%Q in
  match percent_of price_diff avg_price with
  | Ok percent_diff =>
      let '(good, quality, why) := classify percent_diff in
      Ok (mkDealAnalysis p good why avg_price price_diff quality)
  | Raise e => Raise e
  end.

(** The whole loop, appending to [acc]. *)
Fixpoint analyze_loop (avg_price : Q) (ps : list ProductData)
    (acc : list DealAnalysis) : result (list DealAnalysis) :=
  match ps with
  | [] => Ok acc
  | p :: rest =>
      match analyze_product avg_price p with
      | Ok a => analyze_loop avg_price rest (acc ++ [a])
      | Raise e => Raise e
      end
  end.

(** The body of [analyze_deals] on the content of [products]. *)
Definition analyze_batch (ps : list ProductData) : result (list DealAnalysis) :=
  match ps with
  | [] => Ok []
  | _ =>
      let prices := map price ps in
      match py_div (py_sum prices) (inject_Z (Z.of_nat (List.length prices))) with
      | Ok avg_price => analyze_loop avg_price ps []
      | Raise e => Raise e
      end
  end.

(** [products] is the caller's list object; the result is a new one. *)
Definition analyze_deals (products_ : loc) : M loc :=
  ps ← read_products products_;
  result_ ← lift (analyze_batch ps);
  alloc (AnalysisList result_).

(** ** Agent 3: [ReportAgent] *)

(** [list.sort(key=...)] is a stable sort that compares keys with [<].
    The outcome of a stable sort is determined by the keys; it is
    computed here by insertion from the right. *)
Fixpoint insert_by_key {A : Type} (key : A -> Q) (x : A) (l : list A) : list A :=
  match l with
  | [] => [x]
  | y :: l' =>
      if Num.Qltb (key y) (key x) then y :: insert_by_key key x l'
      else x :: l
  end.

Definition list_sort {A : Type} (key : A -> Q) (l : list A) : list A :=
  foldr (insert_by_key key) [] l.

Definition price_key (a : DealAnalysis) : Q := price (product a).

(** The f-string of the summary; [best_deal] is [None] for an empty list,
    and [None.product] raises [AttributeError]. *)
Definition summary_of (sorted good_deals : list DealAnalysis)
    (best_deal : option DealAnalysis) : result string :=
  match best_deal with
  | Some best =>
      Ok ("Analyzed " ++ pretty (List.length sorted) ++ " listings. "
          ++ "Found " ++ pretty (List.length good_deals) ++ " good deals. "
          ++ "Best price: $" ++ Num.format_f 2 (price (product best))
          ++ " at " ++ store (product best) ++ ".")
  | None => Raise AttributeError
  end.

(** [analyses] is the caller's list object: it is sorted in place and
    becomes the report's list. *)
Definition generate_report (analyses_ : loc) : M Report :=
  xs ← read_analyses analyses_;
  let sorted := list_sort price_key xs in
  _ ← write analyses_ (AnalysisList sorted);
  let good_deals := List.filter is_good_deal sorted in
  let best_deal := head sorted in
  summary_ ← lift (summary_of sorted good_deals best_deal);
  t ← datetime_now;
  mret (mkReport analyses_ t summary_).

End Agents.

(** ** [ReportAgent.display_report] and [export_to_file] *)

(** The line feed. *)
Definition nl : string := String "010" EmptyString.

(** [c * n] for a one-character string. *)
Fixpoint repeat_char (c : ascii) (n : nat) : string :=
  match n with
  | O => EmptyString
  | S n' => String c (repeat_char c n')
  end.

(** The format specifications [:c<width] and [:>width]: the text is
    filled up to [width] characters, on its right with [c] or on its
    left with spaces; a longer text is left as it is. *)
Definition fill_right (c : ascii) (width : nat) (s : string) : string :=
  s ++ repeat_char c (width - String.length s).

Definition fill_left (width : nat) (s : string) : string :=
  repeat_char " " (width - String.length s) ++ s.

(** The literal held by [deal_quality]. *)
Definition quality_name (q : DealQuality) : string :=
  match q with
  | EXCELLENT => "EXCELLENT"
  | GOOD => "GOOD"
  | AVERAGE => "AVERAGE"
  | POOR => "POOR"
  end.

(** The lookup in the dictionary of [display_report]; every quality is
    a key of it, so the default is never taken. *)
Definition emoji_of (q : DealQuality) : string :=
  match q with
  | EXCELLENT => "🔥"
  | GOOD => "✅"
  | AVERAGE => "⚠️"
  | POOR => "❌"
  end.

(** The text forms of a time stamp, left to the [datetime] library:
    [strftime('%Y-%m-%d %H:%M:%S')] and [str]. *)
Record TimeFormat : Type := mkTimeFormat {
  strftime : Z -> string;
  str_datetime : Z -> string
}.

Definition rule : string := repeat_char "=" 80.

(** The lines printed before the loop of [display_report], one per call
    of [print]. *)
Definition display_header (tf : TimeFormat) (report : Report) : list string :=
  [ nl ++ rule;
    "                         PRICE COMPARISON REPORT";
    rule;
    "Generated: " ++ strftime tf (generated_at report);
    nl ++ "SUMMARY: " ++ summary report;
    rule;
    nl ++ "📊 DETAILED ANALYSIS:" ++ nl ].

(** The four lines printed for one analysis. *)
Definition display_entry (a : DealAnalysis) : list string :=
  [ emoji_of (deal_quality a) ++ " "
      ++ fill_right "." 15 (store (product a)) ++ " | $"
      ++ fill_left 8 (Num.format_f 2 (price (product a))) ++ " | "
      ++ fill_right "." 10 (quality_name (deal_quality a));
    "   └─ " ++ reasoning a;
    "   └─ URL: " ++ url (product a);
    EmptyString ].

(** The lines printed after the loop, for the first entry [best_deal] and
    the last entry [worst] of the list. *)
Definition display_recommendation (best_deal worst : DealAnalysis) : list string :=
  let worst_price := price (product worst) in
  let savings := (worst_price - price (product best_deal))%Q in
  [ "   Buy from " ++ store (product best_deal) ++ " at $"
      ++ Num.format_f 2 (price (product best_deal));
    "   You'll save $" ++ Num.format_f 2 savings
      ++ " compared to the highest price!";
    rule ++ nl ].

(** [display_report]: the lines it prints, and how it ends.  The list of
    the report is only read; [analyses[0]] and [analyses[-1]] raise
    [IndexError] on an empty list, after everything before them has been
    printed. *)
Definition display_report (tf : TimeFormat) (report : Report) (w : World)
  : list string * result unit :=
  match heap w !! analyses report with
  | Some (AnalysisList xs) =>
      let printed :=
        (display_header tf report ++ flat_map display_entry xs
         ++ [rule; (nl ++ "💡 RECOMMENDATION:")%string])%list in
      match head xs, last xs with
      | Some best_deal, Some worst =>
          ((printed ++ display_recommendation best_deal worst)%list, Ok tt)
      | _, _ => (printed, Raise IndexError)
      end
  | _ => (display_header tf report, Raise TypeError)
  end.

(** What can go wrong at the console and in the file system, beside the
    exceptions of the agents: [open] raises [OSError], [input] raises
    [EOFError] at the end of the input. *)
Inductive failure : Type :=
| Exn (e : exn)
| OSError
| EOFError.

(** The operating system's side of a run: the lines still to be read
    from the console, and the text files written. *)
Record Os : Type := mkOs {
  stdin : list string;
  files : gmap string string
}.

(** The two lines appended to the content for one analysis. *)
Definition export_entry (a : DealAnalysis) : string :=
  store (product a) ++ ": $" ++ Num.format_f 2 (price (product a)) ++ " - "
    ++ quality_name (deal_quality a) ++ nl
  ++ reasoning a ++ nl ++ nl.

(** The text [export_to_file] builds for the analyses [xs]. *)
Definition export_content (tf : TimeFormat) (report : Report)
    (xs : list DealAnalysis) : string :=
  "PRICE COMPARISON REPORT - " ++ str_datetime tf (generated_at report)
    ++ nl ++ nl ++ summary report ++ nl ++ nl
  ++ String.concat EmptyString (map export_entry xs).

(** [export_to_file]: the content is built, then [filename] is opened for
    writing, which raises [OSError] when [can_open] refuses it, and
    receives the content in place of what it held. *)
Definition export_to_file (tf : TimeFormat) (can_open : string -> bool)
    (report : Report) (filename : string) (w : World) (os : Os)
  : option failure * Os :=
  match heap w !! analyses report with
  | Some (AnalysisList xs) =>
      if can_open filename
      then (None, mkOs (stdin os)
                       (<[filename := export_content tf report xs]> (files os)))
      else (Some OSError, os)
  | _ => (Some (Exn TypeError), os)
  end.

(** ** [main] *)

(** [input()]: the next line of the console, without its line feed. *)
Definition input (os : Os) : option string * Os :=
  match stdin os with
  | [] => (None, os)
  | line :: rest => (Some line, mkOs rest (files os))
  end.

(** The [while True] loop of [main]: lines are appended to [urls] up to
    the first one that is empty once stripped.  The result is [urls] and
    the lines left, or [None] when the input ends before. *)
Fixpoint read_url_lines (lines urls : list string)
  : option (list string * list string) :=
  match lines with
  | [] => None
  | url_ :: rest =>
      if String.eqb (Str.strip url_) EmptyString then Some (urls, rest)
      else read_url_lines rest (urls ++ [url_])
  end.

(** [input(...).lower() == 'y']. *)
Definition says_yes (answer : string) : bool := String.eqb (Str.lower answer) "y".

(** How a run of [main] ends: with the message that no data was
    collected; after the report has been displayed, and exported if asked
    for; or with an exception, after the report lines in [shown]. *)
Inductive Outcome : Type :=
| NoData
| Completed (report : Report) (shown : list string) (exported : bool)
| Failed (e : failure) (shown : list string).

Section Main.

Variable env : Env.
Variable tf : TimeFormat.
Variable can_open : string -> bool.

(** The part of [main] from [if not scraped_data] on. *)
Definition report_on (scraped_data : loc) (os : Os) (w : World)
  : Outcome * Os * World :=
  match read_products scraped_data w with
  | (Raise e, w0) => (Failed (Exn e) [], os, w0)
  | (Ok [], w0) => (NoData, os, w0)
  | (Ok (_ :: _), w0) =>
      match analyze_deals scraped_data w0 with
      | (Raise e, w1) => (Failed (Exn e) [], os, w1)
      | (Ok analyses_, w1) =>
          match generate_report env analyses_ w1 with
          | (Raise e, w2) => (Failed (Exn e) [], os, w2)
          | (Ok report, w2) =>
              match display_report tf report w2 with
              | (shown, Raise e) => (Failed (Exn e) shown, os, w2)
              | (shown, Ok _) =>
                  match input os with
                  | (None, os1) => (Failed EOFError shown, os1, w2)
                  | (Some answer, os1) =>
                      if says_yes answer then
                        match export_to_file tf can_open report
                                "price_report.txt" w2 os1 with
                        | (Some e, os2) => (Failed e shown, os2, w2)
                        | (None, os2) => (Completed report shown true, os2, w2)
                        end
                      else (Completed report shown false, os1, w2)
                  end
              end
          end
      end
  end.

Definition main (os : Os) (w : World) : Outcome * Os * World :=
  match input os with
  | (None, os1) => (Failed EOFError [], os1, w)
  | (Some product_name_, os1) =>
      match input os1 with
      | (None, os2) => (Failed EOFError [], os2, w)
      | (Some answer, os2) =>
          if says_yes answer then
            match get_mock_data env product_name_ w with
            | (Raise e, w1) => (Failed (Exn e) [], os2, w1)
            | (Ok scraped_data, w1) => report_on scraped_data os2 w1
            end
          else
            match read_url_lines (stdin os2) [] with
            | None => (Failed EOFError [], mkOs [] (files os2), w)
            | Some (urls, rest) =>
                match alloc (UrlList urls) w with
                | (Raise e, w1) => (Failed (Exn e) [], mkOs rest (files os2), w1)
                | (Ok urls_, w1) =>
                    match scrape_multiple_stores env urls_ product_name_ w1 with
                    | (Raise e, w2) =>
                        (Failed (Exn e) [], mkOs rest (files os2), w2)
                    | (Ok scraped_data, w2) =>
                        report_on scraped_data (mkOs rest (files os2)) w2
                    end
                end
            end
      end
  end.

End Main.

(** * Reference notions and example data

    The notions the claims are stated with: those of the specification,
    written after its words, and closed forms of the loops of the model,
    each related to the model by a lemma below.  The inputs of the
    examples follow them. *)

(** ** The classifier *)

(** The arithmetic mean of a list of numbers. *)
Definition mean (qs : list Q) : Q :=
  (fold_right Qplus 0 qs / inject_Z (Z.of_nat (List.length qs)))%Q.




(** A world whose heap holds the single list [v], at location [0]. *)
Definition world_with (v : PyList) : World := mkWorld {[ 0%nat := v ]} 0 0 [].

(** [is_good_deal] and [deal_quality] for a percentage. *)
Definition tier_of (pd : Q) : bool * DealQuality := fst (classify pd).

(** The analysis built by one iteration of the loop, when the division
    succeeds. *)
Definition analysis_of (avg : Q) (p : ProductData) : DealAnalysis :=
  let price_diff := (price p - avg)%Q in
  let '(good, quality, why) := classify (price_diff / avg * 100) in
  mkDealAnalysis p good why avg price_diff quality.

(** The batch of the specification's scenario. *)
Definition listing (store_ : string) (price_ : Q) : ProductData :=
  mkProductData store_ "tv" price_ ("https://" ++ store_ ++ "/tv") 0 [].

Definition scenario_batch : list ProductData :=
  [ listing "a.example" (24999 # 100); listing "b.example" (26999 # 100);
    listing "c.example" (29999 # 100); listing "d.example" (32999 # 100);
    listing "e.example" (34999 # 100) ].


(** ** The reporter *)

(** Ascending order of the keys. *)
Definition key_le {A : Type} (key : A -> Q) (a b : A) : Prop :=
  (key a <= key b)%Q.

(** The elements whose key equals [q], in their order of occurrence. *)
Definition with_key {A : Type} (key : A -> Q) (q : Q) (l : list A) : list A :=
  List.filter (fun a => Qeq_bool (key a) q) l.

(** The environment of the examples: the clock stands still, the random
    generator always yields one half, every request fails. *)
Definition quiet_env : Env :=
  mkEnv (fun _ => 0%Z) (fun _ => 1 # 2) (fun _ _ => Raise RequestException).

(** The text of the summary for [count] listings, [good] good deals and
    the cheapest entry [best]. *)
Definition summary_text (count good : nat) (best : DealAnalysis) : string :=
  "Analyzed " ++ pretty count ++ " listings. "
  ++ "Found " ++ pretty good ++ " good deals. "
  ++ "Best price: $" ++ Num.format_f 2 (price (product best))
  ++ " at " ++ store (product best) ++ ".".

(** The analyses of the scenario's batch. *)
Definition scenario_analyses : list DealAnalysis :=
  map (analysis_of (29999 # 100)) scenario_batch.

(** The listings of the specification's example: two stores ask 299.99. *)
Definition tied_analyses : list DealAnalysis :=
  map (analysis_of (29999 # 100))
    [ listing "a.example" (29999 # 100); listing "c.example" (24999 # 100);
      listing "d.example" (34999 # 100); listing "b.example" (29999 # 100) ].

(** ** The extractor and the collector *)

(** The name and the price [extract_product_info] reads off a container,
    if it reads any. *)
Definition extract_fields (container : Node) : option (string * Q) :=
  match or_else (Soup.find container heading_filter)
                (Soup.find container title_link_filter),
        Soup.find container price_filter with
  | Some name_elem, Some price_elem =>
      match Str.price_search (Soup.get_text_strip price_elem) with
      | Some price_match =>
          match float_of_string (Str.replace "," "" price_match) with
          | Ok q => Some (Soup.get_text_strip name_elem, q)
          | Raise _ => None
          end
      | None => None
      end
  | _, _ => None
  end.

(** The world after [n] further readings of the clock. *)
Definition advance_clock (n : nat) (w : World) : World :=
  mkWorld (heap w) (clock w + n) (draws w) (requests w).


Definition free_card : Node :=
  Tag "div" ["product"]
    [ Tag "h3" [] [NavigableString "Sample"];
      Tag "span" ["price"] [NavigableString "$0.00"] ].

(** The records made of the fields read off successive candidates, the
    first one stamped with the [k]-th reading of the clock. *)
Fixpoint stamp (env : Env) (store_name u : string) (k : nat)
    (fields : list (string * Q)) : list ProductData :=
  match fields with
  | [] => []
  | (name, q) :: rest =>
      mkProductData store_name name q u (time_at env k) []
      :: stamp env store_name u (S k) rest
  end.

(** What one source contributes, following the specification: nothing
    when the fetch fails; otherwise the records extracted, in candidate
    order, from the first 10 candidate containers of its document. *)
Definition source_records (env : Env) (u : string) (w : World)
  : list ProductData :=
  match http_get env (List.length (requests w)) u, store_name_of u with
  | Ok soup, Ok store_name =>
      stamp env store_name u (clock w)
        (omap extract_fields (firstn 10 (product_containers soup)))
  | _, _ => []
  end.

(** The world after a source has been processed: its request has been
    issued and the clock read once per record. *)
Definition after_source (env : Env) (u : string) (w : World) : World :=
  mkWorld (heap w) (clock w + List.length (source_records env u w)) (draws w)
          (requests w ++ [u]).

(** What a sequence of sources contributes, following the
    specification: the concatenation, in source order, of what each
    source contributes. *)
Fixpoint collected (env : Env) (urls : list string) (w : World)
  : list ProductData :=
  match urls with
  | [] => []
  | u :: rest =>
      (source_records env u w ++ collected env rest (after_source env u w))%list
  end.

(** The world after a sequence of sources has been processed. *)
Fixpoint after_sources (env : Env) (urls : list string) (w : World) : World :=
  match urls with
  | [] => w
  | u :: rest => after_sources env rest (after_source env u w)
  end.

(** A page with three candidate containers, the third without a price,
    and an environment in which only that page can be fetched. *)
Definition shop_page : Node :=
  Tag "[document]" []
    [ Tag "html" []
        [ Tag "body" []
            [ Tag "div" ["product-card"]
                [ Tag "h3" [] [NavigableString " Phone X "];
                  Tag "span" ["price"] [NavigableString "$1,299.99"] ];
              Tag "div" ["grid-Item"]
                [ Tag "a" ["Title"] [NavigableString "Case"];
                  Tag "span" ["sale-price"] [NavigableString "now 12.50 USD"] ];
              Tag "div" ["product"]
                [ Tag "h2" [] [NavigableString "Sold out"] ] ] ] ].

Definition shop_url : string := "https://www.shop.example/tv".

Definition shop_env : Env :=
  mkEnv (fun k => Z.of_nat k) (fun _ => 1 # 2)
        (fun _ u => if String.eqb u shop_url then Ok shop_page
                    else Raise RequestException).

Definition shop_sources : list string :=
  ["https://down.example/tv"; shop_url; "not a url"; shop_url].

(** ** Mock mode *)

(** The offset drawn for the [k]-th random number. *)
Definition mock_offset (env : Env) (k : nat) : Q :=
  (-50 + (50 - -50) * random_at env k)%Q.

(** The records of mock mode for the stores [stores], made with the
    random numbers from the [d]-th and the clock readings from the
    [c]-th on. *)
Fixpoint mock_records (env : Env) (name : string) (d c : nat)
    (stores : list string) : list ProductData :=
  match stores with
  | [] => []
  | store_ :: rest =>
      mkProductData store_ name (Num.round (base_price + mock_offset env d) 2)
        ("https://" ++ Str.lower store_ ++ ".com/product") (time_at env c) []
      :: mock_records env name (S d) (S c) rest
  end.


(** Two listings, the dearer one first. *)
Definition unsorted_batch : list ProductData :=
  [ listing "a.example" 300; listing "b.example" 250 ].

(** ** Notions of the further properties *)

(** The sum of a list of numbers. *)
Definition total (qs : list Q) : Q := fold_right Qplus 0%Q qs.

(** The tiers from best to worst. *)
Definition tier_rank (q : DealQuality) : nat :=
  match q with
  | EXCELLENT => 0
  | GOOD => 1
  | AVERAGE => 2
  | POOR => 3
  end.

(** The tier of an analysis read as a band of prices around the average
    [m]: at most 85 percent of it, at most 95 percent, at most 105
    percent, or more. *)
Definition in_price_band (m : Q) (a : DealAnalysis) : Prop :=
  let p := price (product a) in
  (is_good_deal a = true <-> (p <= (95 # 100) * m)%Q)
  /\ (deal_quality a = EXCELLENT <-> (p <= (85 # 100) * m)%Q)
  /\ (deal_quality a = GOOD <-> ((85 # 100) * m < p)%Q /\ (p <= (95 # 100) * m)%Q)
  /\ (deal_quality a = AVERAGE
      <-> ((95 # 100) * m < p)%Q /\ (p <= (105 # 100) * m)%Q)
  /\ (deal_quality a = POOR <-> ((105 # 100) * m < p)%Q).



(** The number of occurrences of a character. *)
Fixpoint count_char (c : ascii) (s : string) : nat :=
  match s with
  | EmptyString => 0
  | String d s' => (if Ascii.eqb d c then 1 else 0) + count_char c s'
  end.







(** How [main] goes on once the analyses have been displayed: the answer
    to the question about the export is read, and the file written if
    asked for. *)
Definition after_display (tf : TimeFormat) (can_open : string -> bool)
    (report : Report) (shown : list string) (xs : list DealAnalysis) (os : Os)
  : Outcome * Os :=
  match stdin os with
  | [] => (Failed EOFError shown, os)
  | answer :: rest =>
      if says_yes answer then
        if can_open "price_report.txt"
        then (Completed report shown true,
              mkOs rest (<["price_report.txt" := export_content tf report xs]>
                           (files os)))
        else (Failed OSError shown, mkOs rest (files os))
      else (Completed report shown false, mkOs rest (files os))
  end.

(** A page whose only listing is free, and an environment that serves
    it for every URL. *)
Definition free_page : Node :=
  Tag "[document]" [] [Tag "body" [] [free_card]].

Definition free_env : Env :=
  mkEnv (fun _ => 0%Z) (fun _ => 1 # 2) (fun _ _ => Ok free_page).

(** A time format and runs of the console for the examples. *)
Definition plain_time : TimeFormat :=
  mkTimeFormat (fun _ => "2026-01-01 00:00:00")
               (fun _ => "2026-01-01 00:00:00.000000").

Definition empty_world : World := mkWorld ∅ 0 0 [].

(** A run in real mode on one URL, without export. *)
Definition real_run : Os :=
  mkOs ["tv"; "n"; "https://free.example/tv"; ""; "n"] ∅.

(** * Properties *)

(** ** The string and number functions on sample inputs *)

Example price_search_samples :
  Str.price_search "$1,299.99 USD" = Some "1,299.99"
  /\ Str.price_search "from 12.5.7" = Some "12.5"
  /\ Str.price_search "3 for 2" = Some "3"
  /\ Str.price_search "a,b" = Some ","
  /\ Str.price_search "call us" = None.
Proof. repeat split; reflexivity. Qed.

Example float_of_string_samples :
  float_of_string "1299.99" = Ok (129999 # 100)
  /\ float_of_string "12." = Ok (12 # 1)
  /\ float_of_string ".5" = Ok (5 # 10)
  /\ float_of_string "0.00" = Ok (0 # 100)
  /\ float_of_string "." = Raise ValueError
  /\ float_of_string "" = Raise ValueError.
Proof. repeat split; reflexivity. Qed.

Example string_samples :
  Str.strip "  Phone X  " = "Phone X"
  /\ Str.split "/" "https://www.shop.example/tv"
     = ["https:"; ""; "www.shop.example"; "tv"]
  /\ Str.replace "www." "" "www.shop.example" = "shop.example"
  /\ Str.lower "BestBuy" = "bestbuy"
  /\ Str.re_search_i ["product"; "item"] "grid-Item" = true
  /\ Str.re_search_i ["price"] "pricing" = false.
Proof. repeat split; reflexivity. Qed.

Example format_samples :
  Num.format_f 2 (29999 # 100) = "299.99"
  /\ Num.format_f 1 (- (50 # 3)) = "-16.7"
  /\ Num.format_f 2 (5 # 1) = "5.00"
  /\ Num.round (299991 # 1000) 2 = (29999 # 100)
  /\ Num.round_half_even (5 # 2) = 2%Z
  /\ Num.round_half_even (7 # 2) = 4%Z.
Proof. repeat split; reflexivity. Qed.

(** ** Arithmetic of the model *)

Lemma fold_left_Qplus (qs : list Q) (a : Q) :
  (fold_left Qplus qs a == a + fold_right Qplus 0 qs)%Q.
Proof.
  revert a. induction qs as [|q qs IH]; intros a; simpl.
  - lra.
  - rewrite IH. lra.
Qed.

Lemma py_sum_fold_right (qs : list Q) : (py_sum qs == fold_right Qplus 0 qs)%Q.
Proof. unfold py_sum. rewrite fold_left_Qplus. lra. Qed.

Lemma py_div_ok (x y : Q) : ~ (y == 0)%Q -> py_div x y = Ok (x / y)%Q.
Proof.
  intros Hy. unfold py_div.
  destruct (Qeq_bool y 0) eqn:E; [|reflexivity].
  apply Qeq_bool_iff in E. contradiction.
Qed.

Lemma py_div_zero (x y : Q) : (y == 0)%Q -> py_div x y = Raise ZeroDivisionError.
Proof.
  intros Hy. unfold py_div. apply Qeq_bool_iff in Hy. now rewrite Hy.
Qed.

Lemma inject_length_nonzero {A : Type} (l : list A) :
  l <> [] -> ~ (inject_Z (Z.of_nat (List.length l)) == 0)%Q.
Proof.
  intros Hl H. destruct l as [|a l]; [congruence|].
  unfold Qeq in H. simpl in H. lia.
Qed.

(** The average computed by [analyze_deals] is the arithmetic mean. *)
Lemma batch_average_is_mean (qs : list Q) :
  (py_sum qs / inject_Z (Z.of_nat (List.length qs)) == mean qs)%Q.
Proof. unfold mean. now rewrite py_sum_fold_right. Qed.

Lemma Qle_bool_false (x y : Q) : Qle_bool x y = false <-> (y < x)%Q.
Proof.
  split; intros H.
  - apply Qnot_le_lt. intros Hle. apply Qle_bool_iff in Hle. congruence.
  - destruct (Qle_bool x y) eqn:E; [|reflexivity].
    apply Qle_bool_iff in E. exfalso. eapply Qlt_not_le; eauto.
Qed.

(** ** The classifier *)



Lemma analyze_product_ok (avg : Q) (p : ProductData) :
  ~ (avg == 0)%Q -> analyze_product avg p = Ok (analysis_of avg p).
Proof.
  intros Havg. unfold analyze_product, percent_of, analysis_of.
  rewrite py_div_ok by assumption.
  destruct (classify _) as [[good quality] why]. reflexivity.
Qed.

Lemma analyze_product_zero (avg : Q) (p : ProductData) :
  (avg == 0)%Q -> analyze_product avg p = Raise ZeroDivisionError.
Proof.
  intros Havg. unfold analyze_product, percent_of.
  now rewrite py_div_zero.
Qed.

Lemma analyze_loop_ok (avg : Q) (ps : list ProductData) :
  ~ (avg == 0)%Q ->
  forall acc, analyze_loop avg ps acc = Ok (acc ++ map (analysis_of avg) ps)%list.
Proof.
  intros Havg. induction ps as [|p ps IH]; intros acc; simpl.
  - now rewrite app_nil_r.
  - rewrite analyze_product_ok by assumption.
    rewrite IH, <- app_assoc. reflexivity.
Qed.



(** [analyze_batch] in closed form. *)
Lemma analyze_batch_ok (ps : list ProductData) :
  ps <> [] ->
  let avg := (py_sum (map price ps)
              / inject_Z (Z.of_nat (List.length (map price ps))))%Q in
  ~ (avg == 0)%Q ->
  analyze_batch ps = Ok (map (analysis_of avg) ps).
Proof.
  intros Hps avg Havg. unfold analyze_batch.
  destruct ps as [|p ps]; [congruence|].
  rewrite py_div_ok.
  - fold avg. now rewrite analyze_loop_ok.
  - apply inject_length_nonzero. discriminate.
Qed.

Lemma analyze_batch_zero_average (ps : list ProductData) :
  ps <> [] ->
  (mean (map price ps) == 0)%Q ->
  analyze_batch ps = Raise ZeroDivisionError.
Proof.
  intros Hps Hz. unfold analyze_batch.
  destruct ps as [|p ps]; [congruence|].
  rewrite py_div_ok by (apply inject_length_nonzero; discriminate).
  cbn [analyze_loop]. rewrite analyze_product_zero; [reflexivity|].
  now rewrite batch_average_is_mean.
Qed.

(** ** Reading and allocating list objects *)

Lemma read_products_eq (w : World) (l : loc) (ps : list ProductData) :
  heap w !! l = Some (ProductList ps) -> read_products l w = (Ok ps, w).
Proof. intros H. unfold read_products. now rewrite H. Qed.

Lemma read_analyses_eq (w : World) (l : loc) (xs : list DealAnalysis) :
  heap w !! l = Some (AnalysisList xs) -> read_analyses l w = (Ok xs, w).
Proof. intros H. unfold read_analyses. now rewrite H. Qed.

Lemma read_urls_eq (w : World) (l : loc) (us : list string) :
  heap w !! l = Some (UrlList us) -> read_urls l w = (Ok us, w).
Proof. intros H. unfold read_urls. now rewrite H. Qed.

Lemma fresh_unused (w : World) : heap w !! fresh (dom (heap w)) = None.
Proof. apply not_elem_of_dom, is_fresh. Qed.

Lemma analyze_deals_eq (w : World) (l : loc) (ps : list ProductData) :
  heap w !! l = Some (ProductList ps) ->
  analyze_deals l w =
    match analyze_batch ps with
    | Ok xs =>
        (Ok (fresh (dom (heap w))),
         set_heap (<[fresh (dom (heap w)) := AnalysisList xs]> (heap w)) w)
    | Raise e => (Raise e, w)
    end.
Proof.
  intros H. unfold analyze_deals, mbind, M_bind.
  rewrite (read_products_eq _ _ _ H). unfold lift.
  destruct (analyze_batch ps); reflexivity.
Qed.

(** ** Claims about the classifier *)

Example scenario_tiers :
  option_map (fun v => match v with
                       | AnalysisList xs => map deal_quality xs
                       | _ => []
                       end)
    (heap (snd (analyze_deals 0%nat (world_with (ProductList scenario_batch)))) !! 1%nat)
  = Some [EXCELLENT; GOOD; AVERAGE; POOR; POOR].
Proof. vm_compute. reflexivity. Qed.

(** Prices 85 and 115 lie exactly 15 percent off their average 100, prices
    95 and 105 exactly 5 percent: the boundaries belong to the lower
    tier. *)
Example boundary_tiers :
  analyze_batch [listing "a.example" 85; listing "b.example" 115] =
    Ok (map (analysis_of (200 / 2)) [listing "a.example" 85; listing "b.example" 115])
  /\ map deal_quality
       (map (analysis_of (200 / 2)) [listing "a.example" 85; listing "b.example" 115])
     = [EXCELLENT; POOR]
  /\ map deal_quality
       (map (analysis_of (200 / 2)) [listing "a.example" 95; listing "b.example" 105])
     = [GOOD; AVERAGE].
Proof. repeat split; vm_compute; reflexivity. Qed.




(** C4. On the empty product sequence [analyze_deals] returns a new,
    empty list of analyses and raises nothing: the test [not products]
    returns before the average is computed, although the quotient
    [sum(prices) / len(prices)] of an empty batch would raise
    [ZeroDivisionError]. *)
Theorem analyze_deals_empty (w : World) (l : loc) :
  heap w !! l = Some (ProductList []) ->
  exists l' : loc,
    analyze_deals l w
      = (Ok l', set_heap (<[l' := AnalysisList []]> (heap w)) w)
    /\ heap w !! l' = None
    /\ py_div (py_sum (map price []))
              (inject_Z (Z.of_nat (List.length (map price []))))
       = Raise ZeroDivisionError.
Proof.
  intros Hl. exists (fresh (dom (heap w))).
  split; [|split].
  - rewrite (analyze_deals_eq _ _ _ Hl). reflexivity.
  - apply fresh_unused.
  - apply py_div_zero. reflexivity.
Qed.

Lemma analyze_deals_empty_witness :
  heap (world_with (ProductList [])) !! 0%nat = Some (ProductList [])
  /\ exists l' : loc,
       analyze_deals 0%nat (world_with (ProductList []))
         = (Ok l', set_heap (<[l' := AnalysisList []]>
                               (heap (world_with (ProductList []))))
                            (world_with (ProductList [])))
       /\ heap (world_with (ProductList [])) !! l' = None
       /\ py_div (py_sum (map price []))
                 (inject_Z (Z.of_nat (List.length (map price []))))
          = Raise ZeroDivisionError.
Proof.
  split; [reflexivity|].
  apply (analyze_deals_empty (world_with (ProductList [])) 0%nat).
  reflexivity.
Defined.

(** The outcome of [analyze_deals] depends on the batch alone, not on
    the world it is called in. *)
Lemma analyze_deals_outcome (w : World) (l : loc) (ps : list ProductData) :
  heap w !! l = Some (ProductList ps) ->
  let r := analyze_deals l w in
  heap (snd r) !! l = Some (ProductList ps)
  /\ clock (snd r) = clock w
  /\ draws (snd r) = draws w
  /\ requests (snd r) = requests w
  /\ match analyze_batch ps with
     | Ok xs => exists l', fst r = Ok l' /\ l' <> l
                           /\ heap w !! l' = None
                           /\ heap (snd r) = <[l' := AnalysisList xs]> (heap w)
     | Raise e => fst r = Raise e /\ snd r = w
     end.
Proof.
  intros Hl r. subst r. rewrite (analyze_deals_eq _ _ _ Hl).
  destruct (analyze_batch ps) as [xs|e]; simpl.
  - assert (Hne : fresh (dom (heap w)) <> l).
    { intros E. pose proof (fresh_unused w) as F. rewrite E in F. congruence. }
    rewrite lookup_insert_ne by exact Hne.
    repeat split; try assumption.
    exists (fresh (dom (heap w))). repeat split; try assumption.
    apply fresh_unused.
  - repeat split; assumption.
Qed.

Lemma analysis_of_average (avg : Q) (ps : list ProductData) :
  Forall (fun a => average_price a = avg) (map (analysis_of avg) ps).
Proof.
  induction ps as [|p ps IH]; simpl; constructor; [|exact IH].
  unfold analysis_of. destruct (classify _) as [[g t] y]. reflexivity.
Qed.

Lemma analyze_batch_same_average (ps : list ProductData) (xs : list DealAnalysis) :
  analyze_batch ps = Ok xs ->
  Forall (fun a => average_price a
                   = (py_sum (map price ps)
                      / inject_Z (Z.of_nat (List.length (map price ps))))%Q) xs.
Proof.
  unfold analyze_batch. destruct ps as [|p ps].
  - intros [= <-]. constructor.
  - set (avg := (py_sum _ / _)%Q).
    rewrite py_div_ok by (apply inject_length_nonzero; discriminate).
    destruct (Qeq_bool avg 0) eqn:E.
    + apply Qeq_bool_iff in E. cbn [analyze_loop].
      rewrite analyze_product_zero by exact E. discriminate.
    + assert (Havg : ~ (avg == 0)%Q).
      { intros H. apply Qeq_bool_iff in H. congruence. }
      rewrite analyze_loop_ok by exact Havg. intros [= <-].
      exact (analysis_of_average avg (p :: ps)).
Qed.

(** C8. [analyze_deals] is a function of the batch: called twice on the
    same list of products it either raises the same exception twice or
    returns two lists with identical content, in the same order.  The
    first call leaves the batch, the clock, the random generator and the
    HTTP session as they were, so nothing is carried over to the second
    call; and all analyses of a batch carry one and the same
    [average_price]. *)
Theorem analyze_deals_deterministic (w : World) (l : loc) (ps : list ProductData) :
  heap w !! l = Some (ProductList ps) ->
  let first := analyze_deals l w in
  let second := analyze_deals l (snd first) in
  heap (snd first) !! l = Some (ProductList ps)
  /\ (clock (snd second), draws (snd second), requests (snd second))
     = (clock w, draws w, requests w)
  /\ ((exists e, fst first = Raise e /\ fst second = Raise e)
      \/ (exists (l1 l2 : loc) (xs : list DealAnalysis) (avg : Q),
            fst first = Ok l1 /\ fst second = Ok l2
            /\ heap (snd second) !! l1 = Some (AnalysisList xs)
            /\ heap (snd second) !! l2 = Some (AnalysisList xs)
            /\ Forall (fun a => average_price a = avg) xs)).
Proof.
  intros Hl first second.
  destruct (analyze_deals_outcome w l ps Hl) as (K1 & C1 & D1 & R1 & O1).
  fold first in K1, C1, D1, R1, O1.
  destruct (analyze_deals_outcome (snd first) l ps K1) as (K2 & C2 & D2 & R2 & O2).
  fold second in K2, C2, D2, R2, O2.
  split; [exact K1|]. split; [congruence|].
  destruct (analyze_batch ps) as [xs|e] eqn:B.
  - right.
    destruct O1 as (l1 & E1 & N1 & F1 & H1).
    destruct O2 as (l2 & E2 & N2 & F2 & H2).
    exists l1, l2, xs, (py_sum (map price ps)
                        / inject_Z (Z.of_nat (List.length (map price ps))))%Q.
    split; [exact E1|]. split; [exact E2|].
    assert (L1 : heap (snd first) !! l1 = Some (AnalysisList xs)).
    { rewrite H1. apply lookup_insert_eq. }
    split; [|split].
    + rewrite H2, lookup_insert_ne; [exact L1|].
      intros ->. congruence.
    + rewrite H2. apply lookup_insert_eq.
    + now apply analyze_batch_same_average.
  - left. exists e. destruct O1 as [E1 _], O2 as [E2 _]. now split.
Qed.

Lemma analyze_deals_deterministic_witness :
  heap (world_with (ProductList scenario_batch)) !! 0%nat
    = Some (ProductList scenario_batch)
  /\ let first := analyze_deals 0%nat (world_with (ProductList scenario_batch)) in
     let second := analyze_deals 0%nat (snd first) in
     heap (snd first) !! 0%nat = Some (ProductList scenario_batch)
     /\ (clock (snd second), draws (snd second), requests (snd second))
        = (clock (world_with (ProductList scenario_batch)),
           draws (world_with (ProductList scenario_batch)),
           requests (world_with (ProductList scenario_batch)))
     /\ ((exists e, fst first = Raise e /\ fst second = Raise e)
         \/ (exists (l1 l2 : loc) (xs : list DealAnalysis) (avg : Q),
               fst first = Ok l1 /\ fst second = Ok l2
               /\ heap (snd second) !! l1 = Some (AnalysisList xs)
               /\ heap (snd second) !! l2 = Some (AnalysisList xs)
               /\ Forall (fun a => average_price a = avg) xs)).
Proof.
  split; [reflexivity|].
  apply (analyze_deals_deterministic
           (world_with (ProductList scenario_batch)) 0%nat scenario_batch).
  reflexivity.
Defined.

(** ** Sorting by key *)

Section SortByKey.

Context {A : Type} (key : A -> Q).

Lemma Qltb_true (x y : Q) : Num.Qltb x y = true <-> (x < y)%Q.
Proof.
  unfold Num.Qltb. rewrite negb_true_iff. apply Qle_bool_false.
Qed.

Lemma Qltb_false (x y : Q) : Num.Qltb x y = false <-> (y <= x)%Q.
Proof.
  unfold Num.Qltb. rewrite negb_false_iff. apply Qle_bool_iff.
Qed.

Lemma insert_by_key_perm (x : A) (l : list A) :
  Permutation (x :: l) (insert_by_key key x l).
Proof.
  induction l as [|y l IH]; simpl.
  - reflexivity.
  - destruct (Num.Qltb (key y) (key x)).
    + rewrite perm_swap. now apply perm_skip.
    + reflexivity.
Qed.

Lemma list_sort_perm (l : list A) : Permutation l (list_sort key l).
Proof.
  induction l as [|x l IH]; simpl.
  - constructor.
  - rewrite <- insert_by_key_perm. now apply perm_skip.
Qed.

Lemma insert_by_key_sorted (x : A) (l : list A) :
  StronglySorted (key_le key) l -> StronglySorted (key_le key) (insert_by_key key x l).
Proof.
  induction 1 as [|y l Hs IH Hy]; simpl.
  - repeat constructor.
  - destruct (Num.Qltb (key y) (key x)) eqn:E.
    + apply Qltb_true in E. constructor; [exact IH|].
      rewrite <- insert_by_key_perm. constructor; [|exact Hy].
      unfold key_le. lra.
    + apply Qltb_false in E. constructor.
      * now constructor.
      * constructor; [exact E|].
        eapply Forall_impl; [exact Hy|].
        unfold key_le. intros a Ha. lra.
Qed.

Lemma list_sort_sorted (l : list A) : StronglySorted (key_le key) (list_sort key l).
Proof.
  induction l as [|x l IH]; simpl.
  - constructor.
  - now apply insert_by_key_sorted.
Qed.

(** Insertion never moves an element past one of equal key. *)
Lemma insert_by_key_stable (q : Q) (x : A) (l : list A) :
  with_key key q (insert_by_key key x l) = with_key key q (x :: l).
Proof.
  induction l as [|y l IH]; [reflexivity|].
  cbn [insert_by_key].
  destruct (Num.Qltb (key y) (key x)) eqn:E; [|reflexivity].
  apply Qltb_true in E.
  unfold with_key in *. cbn [List.filter] in *. rewrite IH.
  destruct (Qeq_bool (key x) q) eqn:Ex; [|reflexivity].
  destruct (Qeq_bool (key y) q) eqn:Ey; [|reflexivity].
  apply Qeq_bool_iff in Ex, Ey. lra.
Qed.

Lemma list_sort_stable (q : Q) (l : list A) :
  with_key key q (list_sort key l) = with_key key q l.
Proof.
  induction l as [|x l IH]; [reflexivity|].
  cbn [list_sort foldr]. rewrite insert_by_key_stable.
  unfold with_key in *. cbn [List.filter]. fold (list_sort key l).
  now rewrite IH.
Qed.

Lemma list_sort_nil_iff (l : list A) : list_sort key l = [] <-> l = [].
Proof.
  split; intros H.
  - apply Permutation_nil. rewrite <- H. symmetry. apply list_sort_perm.
  - now subst.
Qed.

(** The first element of the sorted list has the least key. *)
Lemma list_sort_head_least (l : list A) (best : A) :
  head (list_sort key l) = Some best ->
  In best l /\ forall a, In a l -> key_le key best a.
Proof.
  intros H. pose proof (list_sort_sorted l) as S.
  pose proof (list_sort_perm l) as P.
  destruct (list_sort key l) as [|b ys]; [discriminate|].
  injection H as ->. split.
  - eapply Permutation_in; [symmetry; exact P|]. now left.
  - intros a Ha. apply (Permutation_in _ P) in Ha.
    inversion S as [|? ? _ Hall]; subst.
    destruct Ha as [<-|Ha].
    + unfold key_le. lra.
    + rewrite List.Forall_forall in Hall. now apply Hall.
Qed.

Lemma filter_length_perm (f : A -> bool) (l l' : list A) :
  Permutation l l' ->
  List.length (List.filter f l) = List.length (List.filter f l').
Proof.
  induction 1 as [|x l l' _ IH|x y l|l l' l'' _ IH1 _ IH2]; simpl.
  - reflexivity.
  - destruct (f x); simpl; congruence.
  - destruct (f x), (f y); reflexivity.
  - congruence.
Qed.

End SortByKey.

(** ** Claims about the reporter *)

(** [generate_report] in closed form. *)
Lemma generate_report_eq (env : Env) (w : World) (l : loc)
    (xs : list DealAnalysis) :
  heap w !! l = Some (AnalysisList xs) ->
  let sorted := list_sort price_key xs in
  let h' := <[l := AnalysisList sorted]> (heap w) in
  generate_report env l w =
    match head sorted with
    | Some best =>
        (Ok (mkReport l (time_at env (clock w))
               (summary_text (List.length sorted)
                  (List.length (List.filter is_good_deal sorted)) best)),
         mkWorld h' (S (clock w)) (draws w) (requests w))
    | None => (Raise AttributeError, set_heap h' w)
    end.
Proof.
  intros Hl sorted h'. unfold generate_report, mbind, M_bind.
  rewrite (read_analyses_eq _ _ _ Hl). fold sorted.
  unfold write, lift, summary_of. cbn beta iota.
  destruct (head sorted) as [best|]; reflexivity.
Qed.

(** C3. Given an empty list of analyses, [generate_report] raises
    [AttributeError] to its caller and builds no report.  Given a
    non-empty one it returns a report whose summary states the number of
    listings, the number of analyses with [is_good_deal] true, and the
    price and store of an entry of least price. *)
Theorem generate_report_summary (env : Env) (w : World) (l : loc)
    (xs : list DealAnalysis) :
  heap w !! l = Some (AnalysisList xs) ->
  match xs with
  | [] => exists w', generate_report env l w = (Raise AttributeError, w')
  | _ :: _ =>
      exists (r : Report) (w' : World) (best : DealAnalysis),
        generate_report env l w = (Ok r, w')
        /\ In best xs
        /\ (forall a, In a xs -> (price (product best) <= price (product a))%Q)
        /\ summary r
           = summary_text (List.length xs)
               (List.length (List.filter is_good_deal xs)) best
  end.
Proof.
  intros Hl. rewrite (generate_report_eq env w l xs Hl).
  destruct xs as [|x xs].
  - simpl. eexists. reflexivity.
  - destruct (head (list_sort price_key (x :: xs))) as [best|] eqn:Hh.
    + destruct (list_sort_head_least price_key _ _ Hh) as [Hin Hmin].
      eexists _, _, best. split; [reflexivity|].
      split; [exact Hin|]. split; [exact Hmin|].
      cbn [summary].
      rewrite <- (Permutation_length (list_sort_perm price_key (x :: xs))).
      rewrite <- (filter_length_perm is_good_deal _ _
                    (list_sort_perm price_key (x :: xs))).
      reflexivity.
    + exfalso.
      assert (E : list_sort price_key (x :: xs) = []).
      { destruct (list_sort price_key (x :: xs)); [reflexivity|discriminate]. }
      apply list_sort_nil_iff in E. discriminate.
Qed.

Lemma generate_report_summary_witness :
  heap (world_with (AnalysisList scenario_analyses)) !! 0%nat
    = Some (AnalysisList scenario_analyses)
  /\ exists (r : Report) (w' : World) (best : DealAnalysis),
       generate_report quiet_env 0%nat (world_with (AnalysisList scenario_analyses))
         = (Ok r, w')
       /\ In best scenario_analyses
       /\ (forall a, In a scenario_analyses ->
             (price (product best) <= price (product a))%Q)
       /\ summary r
          = summary_text (List.length scenario_analyses)
              (List.length (List.filter is_good_deal scenario_analyses)) best.
Proof.
  split; [reflexivity|].
  apply (generate_report_summary quiet_env
           (world_with (AnalysisList scenario_analyses)) 0%nat scenario_analyses).
  reflexivity.
Defined.

Example scenario_summary :
  fst (generate_report quiet_env 0%nat (world_with (AnalysisList scenario_analyses)))
  = Ok (mkReport 0%nat 0%Z
     "Analyzed 5 listings. Found 2 good deals. Best price: $249.99 at a.example.").
Proof. vm_compute. reflexivity. Qed.

Example empty_report_raises :
  fst (generate_report quiet_env 0%nat (world_with (AnalysisList [])))
  = Raise AttributeError.
Proof. vm_compute. reflexivity. Qed.

(** C6. After [generate_report] the list of analyses it was given, which
    is the list the report refers to, holds the input sorted ascending
    by [product.price]: it is a permutation of the input, and for every
    price the entries of that price are in their original relative
    order.  The report is built whenever the input is not empty. *)
Theorem generate_report_sorts (env : Env) (w : World) (l : loc)
    (xs : list DealAnalysis) :
  heap w !! l = Some (AnalysisList xs) ->
  exists ys : list DealAnalysis,
    heap (snd (generate_report env l w)) !! l = Some (AnalysisList ys)
    /\ StronglySorted (key_le price_key) ys
    /\ Permutation xs ys
    /\ (forall q, with_key price_key q ys = with_key price_key q xs)
    /\ (xs <> [] ->
        exists r, fst (generate_report env l w) = Ok r /\ analyses r = l).
Proof.
  intros Hl. exists (list_sort price_key xs).
  rewrite (generate_report_eq env w l xs Hl).
  split.
  { destruct (head (list_sort price_key xs)); simpl; apply lookup_insert_eq. }
  split; [apply list_sort_sorted|].
  split; [apply list_sort_perm|].
  split; [intros q; apply list_sort_stable|].
  intros Hne.
  destruct (head (list_sort price_key xs)) as [best|] eqn:Hh.
  - eexists. split; reflexivity.
  - exfalso. apply Hne, (list_sort_nil_iff price_key).
    destruct (list_sort price_key xs); [reflexivity|discriminate].
Qed.

Example tied_report_order :
  option_map (fun v => match v with
                       | AnalysisList ys => map (fun a => store (product a)) ys
                       | _ => []
                       end)
    (heap (snd (generate_report quiet_env 0%nat
                  (world_with (AnalysisList tied_analyses)))) !! 0%nat)
  = Some ["c.example"; "a.example"; "b.example"; "d.example"].
Proof. vm_compute. reflexivity. Qed.

Lemma generate_report_sorts_witness :
  heap (world_with (AnalysisList tied_analyses)) !! 0%nat
    = Some (AnalysisList tied_analyses)
  /\ exists ys : list DealAnalysis,
       heap (snd (generate_report quiet_env 0%nat
                    (world_with (AnalysisList tied_analyses)))) !! 0%nat
         = Some (AnalysisList ys)
       /\ StronglySorted (key_le price_key) ys
       /\ Permutation tied_analyses ys
       /\ (forall q, with_key price_key q ys = with_key price_key q tied_analyses)
       /\ (tied_analyses <> [] ->
           exists r,
             fst (generate_report quiet_env 0%nat
                    (world_with (AnalysisList tied_analyses))) = Ok r
             /\ analyses r = 0%nat).
Proof.
  split; [reflexivity|].
  apply (generate_report_sorts quiet_env
           (world_with (AnalysisList tied_analyses)) 0%nat tied_analyses).
  reflexivity.
Defined.

(** ** The extractor *)




Lemma advance_clock_0 (w : World) : advance_clock 0 w = w.
Proof. destruct w. unfold advance_clock. simpl. now rewrite Nat.add_0_r. Qed.

Lemma extract_product_info_eq (env : Env) (container : Node)
    (store_name source_url : string) (w : World) :
  extract_product_info env container store_name source_url w =
    match extract_fields container with
    | Some (name, q) =>
        (Ok (Some (mkProductData store_name name q source_url
                     (time_at env (clock w)) [])),
         advance_clock 1 w)
    | None => (Ok None, w)
    end.
Proof.
  unfold extract_product_info, extract_fields, try_except.
  destruct (or_else _ _) as [name_elem|]; [|reflexivity].
  destruct (Soup.find container price_filter) as [price_elem|]; [|reflexivity].
  destruct (Str.price_search _) as [price_match|]; [|reflexivity].
  unfold mbind, M_bind, lift.
  destruct (float_of_string _) as [q|e]; [|reflexivity].
  unfold new_ProductData, mbind, M_bind, datetime_now, mret, M_ret, advance_clock.
  now rewrite Nat.add_1_r.
Qed.



(** ** The collector *)

Lemma omap_length_le {A B : Type} (f : A -> option B) (l : list A) :
  List.length (omap f l) <= List.length l.
Proof.
  induction l as [|a l IH]; csimpl; [lia|].
  destruct (f a); csimpl; lia.
Qed.

Section Collector.

Variable env : Env.

Lemma stamp_length (store_name u : string) (k : nat) (fields : list (string * Q)) :
  List.length (stamp env store_name u k fields) = List.length fields.
Proof.
  revert k. induction fields as [|[name q] rest IH]; intros k; simpl.
  - reflexivity.
  - now rewrite IH.
Qed.

Lemma scrape_loop_eq (containers : list Node) (store_name u : string) :
  forall (products_ : list ProductData) (w : World),
    scrape_loop env containers store_name u products_ w =
      (Ok (products_
           ++ stamp env store_name u (clock w) (omap extract_fields containers))%list,
       advance_clock (List.length (omap extract_fields containers)) w).
Proof.
  induction containers as [|c cs IH]; intros products_ w.
  - simpl. now rewrite app_nil_r, advance_clock_0.
  - cbn [scrape_loop omap list_omap]. rewrite extract_product_info_eq.
    destruct (extract_fields c) as [[name q]|].
    + rewrite IH, <- app_assoc. cbn [stamp List.length app].
      unfold advance_clock. cbn [heap clock draws requests].
      rewrite Nat.add_1_r, Nat.add_succ_r. reflexivity.
    + apply IH.
Qed.

Lemma scrape_store_eq (u product_query : string) (w : World) :
  scrape_store env u product_query w
  = (Ok (source_records env u w), after_source env u w).
Proof.
  unfold scrape_store, source_records, after_source, source_records.
  unfold mbind, M_bind, session_get, lift. cbn [heap clock draws requests].
  destruct (http_get env (List.length (requests w)) u) as [soup|e].
  - destruct (store_name_of u) as [store_name|e].
    + unfold mret, M_ret. rewrite scrape_loop_eq. cbn [List.app].
      rewrite stamp_length. reflexivity.
    + cbn [List.length]. now rewrite Nat.add_0_r.
  - cbn [List.length]. now rewrite Nat.add_0_r.
Qed.

Lemma scrape_urls_eq (urls : list string) (product_query : string) :
  forall (all_products : list ProductData) (w : World),
    scrape_urls env urls product_query all_products w
    = (Ok (all_products ++ collected env urls w)%list, after_sources env urls w).
Proof.
  induction urls as [|u rest IH]; intros all_products w.
  - simpl. now rewrite app_nil_r.
  - cbn [scrape_urls collected after_sources].
    rewrite scrape_store_eq, IH, <- app_assoc. reflexivity.
Qed.

Lemma after_sources_requests (urls : list string) (w : World) :
  requests (after_sources env urls w) = (requests w ++ urls)%list.
Proof.
  revert w. induction urls as [|u rest IH]; intros w; simpl.
  - now rewrite app_nil_r.
  - rewrite IH. cbn [requests after_source]. now rewrite <- app_assoc.
Qed.

Lemma after_sources_heap (urls : list string) (w : World) :
  heap (after_sources env urls w) = heap w.
Proof.
  revert w. induction urls as [|u rest IH]; intros w; simpl.
  - reflexivity.
  - now rewrite IH.
Qed.

Lemma source_records_bound (u : string) (w : World) :
  List.length (source_records env u w) <= 10.
Proof.
  unfold source_records.
  destruct (http_get env _ u) as [soup|e]; [|simpl; lia].
  destruct (store_name_of u) as [store_name|e]; [|simpl; lia].
  rewrite stamp_length.
  etransitivity; [apply omap_length_le|].
  rewrite length_firstn. lia.
Qed.

Lemma collected_app (us1 us2 : list string) (w : World) :
  collected env (us1 ++ us2) w
  = (collected env us1 w ++ collected env us2 (after_sources env us1 w))%list.
Proof.
  revert w. induction us1 as [|u us1 IH]; intros w; simpl.
  - reflexivity.
  - now rewrite IH, app_assoc.
Qed.

End Collector.

Example shop_collection :
  option_map (fun v => match v with
                       | ProductList ps =>
                           map (fun p => (store p, product_name p,
                                          Num.format_f 2 (price p), scraped_at p)) ps
                       | _ => []
                       end)
    (heap (snd (scrape_multiple_stores shop_env 0%nat "tv"
                  (world_with (UrlList shop_sources)))) !! 1%nat)
  = Some [ ("shop.example", "Phone X", "1299.99", 0%Z);
           ("shop.example", "Case", "12.50", 1%Z);
           ("shop.example", "Phone X", "1299.99", 2%Z);
           ("shop.example", "Case", "12.50", 3%Z) ].
Proof. vm_compute. reflexivity. Qed.

(** C7. [scrape_multiple_stores] requests every source, in input order,
    whatever the earlier ones gave, and returns a new list holding the
    concatenation, in source order, of what each source contributes: the
    records [extract_product_info] returns, in candidate order, on the
    first 10 candidate containers of its document, hence at most 10
    records and none when there is no valid candidate; and no record at
    all when the fetch raises.  [scrape_store] never raises, and a
    failing source changes nothing for the sources after it. *)
Theorem scrape_multiple_stores_collects (env : Env) (w : World) (l : loc)
    (urls : list string) (product_query : string) :
  heap w !! l = Some (UrlList urls) ->
  exists (l' : loc) (w' : World),
    scrape_multiple_stores env l product_query w = (Ok l', w')
    /\ heap w !! l' = None
    /\ heap w' !! l' = Some (ProductList (collected env urls w))
    /\ requests w' = (requests w ++ urls)%list
    /\ (forall u w0,
          scrape_store env u product_query w0
            = (Ok (source_records env u w0), after_source env u w0)
          /\ List.length (source_records env u w0) <= 10
          /\ (forall e, http_get env (List.length (requests w0)) u = Raise e ->
                source_records env u w0 = [])
          /\ (forall soup store_name,
                http_get env (List.length (requests w0)) u = Ok soup ->
                store_name_of u = Ok store_name ->
                source_records env u w0
                = stamp env store_name u (clock w0)
                    (omap extract_fields (firstn 10 (product_containers soup)))))
    /\ (forall container store_name u w0,
          fst (extract_product_info env container store_name u w0)
          = Ok (option_map
                  (fun f => mkProductData store_name (fst f) (snd f) u
                              (time_at env (clock w0)) [])
                  (extract_fields container)))
    /\ (forall us1 u us2 e,
          urls = (us1 ++ u :: us2)%list ->
          http_get env (List.length (requests (after_sources env us1 w))) u
            = Raise e ->
          collected env urls w
          = (collected env us1 w
             ++ collected env us2 (after_sources env (us1 ++ [u]) w))%list).
Proof.
  intros Hl.
  exists (fresh (dom (heap w))).
  exists (set_heap (<[fresh (dom (heap w)) := ProductList (collected env urls w)]>
                      (heap w))
                   (after_sources env urls w)).
  split.
  { unfold scrape_multiple_stores, mbind, M_bind.
    rewrite (read_urls_eq _ _ _ Hl), scrape_urls_eq. cbn [List.app].
    unfold alloc. now rewrite after_sources_heap. }
  split; [apply fresh_unused|].
  cbn [heap requests set_heap].
  split; [apply lookup_insert_eq|].
  split; [apply after_sources_requests|].
  split.
  - intros u w0. split; [apply scrape_store_eq|].
    split; [apply source_records_bound|]. split.
    + intros e He. unfold source_records. now rewrite He.
    + intros soup store_name Hs Hn. unfold source_records.
      now rewrite Hs, Hn.
  - split.
    { intros container store_name u w0. rewrite extract_product_info_eq.
      destruct (extract_fields container) as [[name q]|]; reflexivity. }
    intros us1 u us2 e -> He.
    rewrite collected_app. f_equal. cbn [collected].
    assert (E : source_records env u (after_sources env us1 w) = []).
    { unfold source_records. now rewrite He. }
    rewrite E. cbn [List.app]. f_equal.
    clear. revert w. induction us1 as [|v us1 IH]; intros w; simpl.
    + reflexivity.
    + apply IH.
Qed.

Lemma scrape_multiple_stores_collects_witness :
  heap (world_with (UrlList shop_sources)) !! 0%nat = Some (UrlList shop_sources)
  /\ exists (l' : loc) (w' : World),
       scrape_multiple_stores shop_env 0%nat "tv" (world_with (UrlList shop_sources))
         = (Ok l', w')
       /\ heap (world_with (UrlList shop_sources)) !! l' = None
       /\ heap w' !! l'
          = Some (ProductList
                    (collected shop_env shop_sources
                       (world_with (UrlList shop_sources))))
       /\ requests w'
          = (requests (world_with (UrlList shop_sources)) ++ shop_sources)%list
       /\ (forall u w0,
             scrape_store shop_env u "tv" w0
               = (Ok (source_records shop_env u w0), after_source shop_env u w0)
             /\ List.length (source_records shop_env u w0) <= 10
             /\ (forall e,
                   http_get shop_env (List.length (requests w0)) u = Raise e ->
                   source_records shop_env u w0 = [])
             /\ (forall soup store_name,
                   http_get shop_env (List.length (requests w0)) u = Ok soup ->
                   store_name_of u = Ok store_name ->
                   source_records shop_env u w0
                   = stamp shop_env store_name u (clock w0)
                       (omap extract_fields
                          (firstn 10 (product_containers soup)))))
       /\ (forall container store_name u w0,
             fst (extract_product_info shop_env container store_name u w0)
             = Ok (option_map
                     (fun f => mkProductData store_name (fst f) (snd f) u
                                 (time_at shop_env (clock w0)) [])
                     (extract_fields container)))
       /\ (forall us1 u us2 e,
             shop_sources = (us1 ++ u :: us2)%list ->
             http_get shop_env
               (List.length (requests (after_sources shop_env us1
                                         (world_with (UrlList shop_sources))))) u
               = Raise e ->
             collected shop_env shop_sources (world_with (UrlList shop_sources))
             = (collected shop_env us1 (world_with (UrlList shop_sources))
                ++ collected shop_env us2
                     (after_sources shop_env (us1 ++ [u])
                        (world_with (UrlList shop_sources))))%list).
Proof.
  split; [reflexivity|].
  apply (scrape_multiple_stores_collects shop_env
           (world_with (UrlList shop_sources)) 0%nat shop_sources "tv").
  reflexivity.
Defined.

(** ** Mock mode *)

(** Rounding to the nearest integer stays within integer bounds. *)
Lemma round_half_even_lower (z : Z) (q : Q) :
  (inject_Z z <= q)%Q -> (z <= Num.round_half_even q)%Z.
Proof.
  destruct q as [n d]. unfold Qle, inject_Z, Num.round_half_even.
  cbn [Qnum Qden]. intros H.
  assert (Hfl : (z <= n / Z.pos d)%Z) by (apply Z.div_le_lower_bound; lia).
  destruct (_ <? _)%Z; [lia|]. destruct (_ <? _)%Z; [lia|].
  destruct (Z.even _); lia.
Qed.

Lemma round_half_even_upper (z : Z) (q : Q) :
  (q <= inject_Z z)%Q -> (Num.round_half_even q <= z)%Z.
Proof.
  destruct q as [n d]. unfold Qle, inject_Z, Num.round_half_even.
  cbn [Qnum Qden]. intros H.
  pose proof (Z.div_mod n (Z.pos d) ltac:(lia)) as E.
  pose proof (Z.mod_pos_bound n (Z.pos d) ltac:(lia)) as B.
  assert (Hfl : (n / Z.pos d <= z)%Z) by nia.
  destruct (2 * (n mod Z.pos d) <? Z.pos d)%Z eqn:L; [lia|].
  apply Z.ltb_ge in L.
  assert (n / Z.pos d < z)%Z by nia.
  destruct (_ <? _)%Z; [lia|]. destruct (Z.even _); lia.
Qed.

(** [round(x, 2)] stays between bounds that are hundredths. *)
Lemma round_2_between (lo hi : Z) (x : Q) :
  (lo # 100 <= x)%Q -> (x <= hi # 100)%Q ->
  (lo # 100 <= Num.round x 2)%Q /\ (Num.round x 2 <= hi # 100)%Q.
Proof.
  intros Hlo Hhi. unfold Num.round.
  change (Z.to_pos (Num.pow10 2)) with 100%positive.
  change (inject_Z (Num.pow10 2)) with (100 # 1)%Q.
  assert (L : (inject_Z lo <= x * (100 # 1))%Q).
  { unfold Qle in *. destruct x as [n d]. cbn in *. lia. }
  assert (U : (x * (100 # 1) <= inject_Z hi)%Q).
  { unfold Qle in *. destruct x as [n d]. cbn in *. lia. }
  apply round_half_even_lower in L. apply round_half_even_upper in U.
  unfold Qle. cbn [Qnum Qden]. lia.
Qed.

Section Mock.

Variable env : Env.

Lemma mock_loop_eq (name : string) (stores : list string) :
  forall (products_ : list ProductData) (w : World),
    mock_loop env stores name products_ w =
      (Ok (products_ ++ mock_records env name (draws w) (clock w) stores)%list,
       mkWorld (heap w) (clock w + List.length stores)
               (draws w + List.length stores) (requests w)).
Proof.
  induction stores as [|s rest IH]; intros products_ w.
  - cbn. rewrite app_nil_r, !Nat.add_0_r. now destruct w.
  - cbn [mock_loop]. unfold mbind, M_bind at 1.
    unfold random_uniform, mbind, M_bind at 1. unfold random_random.
    unfold mret, M_ret at 1. unfold new_ProductData, mbind, M_bind at 1.
    unfold mbind, M_bind, datetime_now, mret, M_ret.
    rewrite IH. cbn [heap clock draws requests mock_records List.length].
    rewrite <- app_assoc, !Nat.add_succ_r. reflexivity.
Qed.

Lemma mock_records_stores (name : string) (d c : nat) (stores : list string) :
  map store (mock_records env name d c stores) = stores.
Proof.
  revert d c. induction stores as [|s rest IH]; intros d c; simpl.
  - reflexivity.
  - now rewrite IH.
Qed.


Lemma mock_offset_range (k : nat) :
  (0 <= random_at env k)%Q -> (random_at env k <= 1)%Q ->
  (-50 <= mock_offset env k)%Q /\ (mock_offset env k <= 50)%Q.
Proof. unfold mock_offset. intros H0 H1. split; lra. Qed.

Lemma get_mock_data_eq (name : string) (w : World) :
  get_mock_data env name w =
    (Ok (fresh (dom (heap w))),
     mkWorld (<[fresh (dom (heap w))
                := ProductList (mock_records env name (draws w) (clock w) mock_stores)]>
                (heap w))
             (clock w + 5) (draws w + 5) (requests w)).
Proof.
  unfold get_mock_data, mbind, M_bind. rewrite mock_loop_eq.
  reflexivity.
Qed.

End Mock.



Lemma mock_records_range (env : Env) (name : string) (stores : list string) :
  (forall k, (0 <= random_at env k)%Q /\ (random_at env k <= 1)%Q) ->
  forall d c,
    Forall (fun p => (24999 # 100 <= price p)%Q /\ (price p <= 34999 # 100)%Q)
           (mock_records env name d c stores).
Proof.
  intros Hr. induction stores as [|s rest IH]; intros d c; simpl.
  - constructor.
  - constructor; [|apply IH]. cbn [price].
    destruct (Hr d) as [H0 H1].
    destruct (mock_offset_range env d H0 H1) as [L U].
    apply round_2_between; unfold base_price; lra.
Qed.

(** C10. When the random generator yields numbers between 0 and 1, as
    [random.random()] does, every record of mock mode has a price in the
    closed interval from 249.99 to 349.99, hence a positive one, whatever
    the offsets drawn. *)
Theorem get_mock_data_price_range (env : Env) (name : string) (w : World) :
  (forall k, (0 <= random_at env k)%Q /\ (random_at env k <= 1)%Q) ->
  exists (l : loc) (w' : World) (ps : list ProductData),
    get_mock_data env name w = (Ok l, w')
    /\ heap w' !! l = Some (ProductList ps)
    /\ List.length ps = 5
    /\ Forall (fun p => (24999 # 100 <= price p)%Q
                        /\ (price p <= 34999 # 100)%Q
                        /\ (0 < price p)%Q) ps.
Proof.
  intros Hr. eexists _, _, _. split; [apply get_mock_data_eq|].
  cbn [heap]. split; [apply lookup_insert_eq|].
  split; [reflexivity|].
  eapply Forall_impl; [apply (mock_records_range env name mock_stores Hr)|].
  cbn beta. intros p [L U]. repeat split; try assumption. lra.
Qed.

Lemma get_mock_data_price_range_witness :
  (forall k, (0 <= random_at quiet_env k)%Q /\ (random_at quiet_env k <= 1)%Q)
  /\ exists (l : loc) (w' : World) (ps : list ProductData),
       get_mock_data quiet_env "tv" (world_with (UrlList [])) = (Ok l, w')
       /\ heap w' !! l = Some (ProductList ps)
       /\ List.length ps = 5
       /\ Forall (fun p => (24999 # 100 <= price p)%Q
                           /\ (price p <= 34999 # 100)%Q
                           /\ (0 < price p)%Q) ps.
Proof.
  assert (Hr : forall k, (0 <= random_at quiet_env k)%Q
                         /\ (random_at quiet_env k <= 1)%Q).
  { intros k. split; discriminate. }
  split; [exact Hr|].
  exact (get_mock_data_price_range quiet_env "tv" (world_with (UrlList [])) Hr).
Defined.

Example mock_scenario :
  option_map (fun v => match v with
                       | ProductList ps =>
                           map (fun p => (store p, Num.format_f 2 (price p), url p)) ps
                       | _ => []
                       end)
    (heap (snd (get_mock_data quiet_env "tv" (world_with (UrlList [])))) !! 1%nat)
  = Some [ ("Amazon", "299.99", "https://amazon.com/product");
           ("Walmart", "299.99", "https://walmart.com/product");
           ("BestBuy", "299.99", "https://bestbuy.com/product");
           ("Target", "299.99", "https://target.com/product");
           ("eBay", "299.99", "https://ebay.com/product") ].
Proof. vm_compute. reflexivity. Qed.

(** ** Effects of the stages on the lists they are given *)

Lemma alloc_frame (v : PyList) (w : World) (l0 : loc) (v0 : PyList) :
  heap w !! l0 = Some v0 ->
  heap (snd (alloc v w)) !! l0 = Some v0
  /\ forall l', fst (alloc v w) = Ok l' -> l' <> l0.
Proof.
  intros H. unfold alloc. cbn [fst snd heap set_heap].
  assert (Hne : fresh (dom (heap w)) <> l0).
  { intros E. pose proof (fresh_unused w) as F. rewrite E in F. congruence. }
  split.
  - now rewrite lookup_insert_ne.
  - intros l' [= <-]. exact Hne.
Qed.

Lemma scrape_multiple_stores_frame (env : Env) (urls : loc) (q : string)
    (w : World) (l0 : loc) (v0 : PyList) :
  heap w !! l0 = Some v0 ->
  heap (snd (scrape_multiple_stores env urls q w)) !! l0 = Some v0
  /\ forall l', fst (scrape_multiple_stores env urls q w) = Ok l' -> l' <> l0.
Proof.
  intros H. unfold scrape_multiple_stores, mbind, M_bind, read_urls.
  destruct (heap w !! urls) as [[us|ps|xs]|];
    try (split; [exact H|discriminate]).
  rewrite scrape_urls_eq.
  apply alloc_frame. now rewrite after_sources_heap.
Qed.

Lemma get_mock_data_frame (env : Env) (name : string) (w : World)
    (l0 : loc) (v0 : PyList) :
  heap w !! l0 = Some v0 ->
  heap (snd (get_mock_data env name w)) !! l0 = Some v0
  /\ forall l', fst (get_mock_data env name w) = Ok l' -> l' <> l0.
Proof.
  intros H. unfold get_mock_data, mbind, M_bind. rewrite mock_loop_eq.
  apply alloc_frame. exact H.
Qed.

Lemma analyze_deals_frame (products_ : loc) (w : World) (l0 : loc) (v0 : PyList) :
  heap w !! l0 = Some v0 ->
  heap (snd (analyze_deals products_ w)) !! l0 = Some v0
  /\ forall l', fst (analyze_deals products_ w) = Ok l' -> l' <> l0.
Proof.
  intros H. unfold analyze_deals, mbind, M_bind, read_products.
  destruct (heap w !! products_) as [[us|ps|xs]|];
    try (split; [exact H|discriminate]).
  unfold lift. destruct (analyze_batch ps) as [xs|e].
  - apply alloc_frame. exact H.
  - split; [exact H|discriminate].
Qed.

Lemma generate_report_frame (env : Env) (l : loc) (w : World)
    (l0 : loc) (v0 : PyList) :
  heap w !! l0 = Some v0 -> l <> l0 ->
  heap (snd (generate_report env l w)) !! l0 = Some v0.
Proof.
  intros H Hne.
  destruct (heap w !! l) as [[us|ps|xs]|] eqn:Hl;
    try (unfold generate_report, mbind, M_bind, read_analyses;
         rewrite Hl; exact H).
  rewrite (generate_report_eq env w l xs Hl).
  destruct (head _); cbn [snd heap set_heap]; now rewrite lookup_insert_ne.
Qed.

(** C5, as stated, fails for the reporter: [generate_report] sorts the
    list it is given in place.  The analyses returned by
    [analyze_deals] for [unsorted_batch] are in the order a, b; after
    [generate_report] the same list object holds them in the order
    b, a. *)
Lemma generate_report_reorders_input :
  exists (l : loc) (w1 : World) (xs ys : list DealAnalysis),
    analyze_deals 0%nat (world_with (ProductList unsorted_batch)) = (Ok l, w1)
    /\ heap w1 !! l = Some (AnalysisList xs)
    /\ map (fun a => store (product a)) xs = ["a.example"; "b.example"]
    /\ heap (snd (generate_report quiet_env l w1)) !! l = Some (AnalysisList ys)
    /\ map (fun a => store (product a)) ys = ["b.example"; "a.example"]
    /\ xs <> ys.
Proof.
  eexists _, _, _, _.
  split; [vm_compute; reflexivity|].
  split; [vm_compute; reflexivity|].
  split; [reflexivity|].
  split; [vm_compute; reflexivity|].
  split; [reflexivity|].
  discriminate.
Qed.

(** C5 (amended). [scrape_multiple_stores], [get_mock_data] and
    [analyze_deals] leave every list that exists when they are called as
    it is, and return a new list.  [generate_report] leaves every list
    but the one it is given as it is; the list it is given is sorted in
    place: afterwards it holds the same analyses, stably sorted by
    price, and it is this very list the report refers to.  The records
    in the lists are never changed. *)
Theorem stages_effect_on_lists (env : Env) (w : World) (l0 : loc) (v : PyList) :
  heap w !! l0 = Some v ->
  (forall urls q,
      heap (snd (scrape_multiple_stores env urls q w)) !! l0 = Some v
      /\ forall l', fst (scrape_multiple_stores env urls q w) = Ok l' -> l' <> l0)
  /\ (forall name,
        heap (snd (get_mock_data env name w)) !! l0 = Some v
        /\ forall l', fst (get_mock_data env name w) = Ok l' -> l' <> l0)
  /\ (forall products_,
        heap (snd (analyze_deals products_ w)) !! l0 = Some v
        /\ forall l', fst (analyze_deals products_ w) = Ok l' -> l' <> l0)
  /\ (forall l, l <> l0 ->
        heap (snd (generate_report env l w)) !! l0 = Some v)
  /\ (forall xs, v = AnalysisList xs ->
        heap (snd (generate_report env l0 w)) !! l0
          = Some (AnalysisList (list_sort price_key xs))
        /\ Permutation xs (list_sort price_key xs)
        /\ forall r, fst (generate_report env l0 w) = Ok r -> analyses r = l0).
Proof.
  intros H.
  split; [intros urls q; now apply scrape_multiple_stores_frame|].
  split; [intros name; now apply get_mock_data_frame|].
  split; [intros products_; now apply analyze_deals_frame|].
  split; [intros l Hne; now apply generate_report_frame|].
  intros xs ->. rewrite (generate_report_eq env w l0 xs H).
  split; [|split].
  - destruct (head _); cbn [snd heap set_heap]; apply lookup_insert_eq.
  - apply list_sort_perm.
  - intros r. destruct (head _); [|discriminate].
    cbn [fst]. now intros [= <-].
Qed.

Lemma stages_effect_on_lists_witness :
  heap (world_with (AnalysisList tied_analyses)) !! 0%nat
    = Some (AnalysisList tied_analyses)
  /\ (forall urls q,
        heap (snd (scrape_multiple_stores quiet_env urls q
                     (world_with (AnalysisList tied_analyses)))) !! 0%nat
          = Some (AnalysisList tied_analyses)
        /\ forall l',
             fst (scrape_multiple_stores quiet_env urls q
                    (world_with (AnalysisList tied_analyses))) = Ok l' ->
             l' <> 0%nat)
  /\ (forall name,
        heap (snd (get_mock_data quiet_env name
                     (world_with (AnalysisList tied_analyses)))) !! 0%nat
          = Some (AnalysisList tied_analyses)
        /\ forall l',
             fst (get_mock_data quiet_env name
                    (world_with (AnalysisList tied_analyses))) = Ok l' ->
             l' <> 0%nat)
  /\ (forall products_,
        heap (snd (analyze_deals products_
                     (world_with (AnalysisList tied_analyses)))) !! 0%nat
          = Some (AnalysisList tied_analyses)
        /\ forall l',
             fst (analyze_deals products_
                    (world_with (AnalysisList tied_analyses))) = Ok l' ->
             l' <> 0%nat)
  /\ (forall l, l <> 0%nat ->
        heap (snd (generate_report quiet_env l
                     (world_with (AnalysisList tied_analyses)))) !! 0%nat
          = Some (AnalysisList tied_analyses))
  /\ (forall xs, AnalysisList tied_analyses = AnalysisList xs ->
        heap (snd (generate_report quiet_env 0%nat
                     (world_with (AnalysisList tied_analyses)))) !! 0%nat
          = Some (AnalysisList (list_sort price_key xs))
        /\ Permutation xs (list_sort price_key xs)
        /\ forall r,
             fst (generate_report quiet_env 0%nat
                    (world_with (AnalysisList tied_analyses))) = Ok r ->
             analyses r = 0%nat).
Proof.
  split; [reflexivity|].
  apply (stages_effect_on_lists quiet_env
           (world_with (AnalysisList tied_analyses)) 0%nat
           (AnalysisList tied_analyses)).
  reflexivity.
Defined.

(** * Further properties *)

(** ** The analyses of a batch *)



Lemma analysis_of_fields (avg : Q) (p : ProductData) :
  product (analysis_of avg p) = p
  /\ average_price (analysis_of avg p) = avg
  /\ price_difference (analysis_of avg p) = (price p - avg)%Q
  /\ (is_good_deal (analysis_of avg p), deal_quality (analysis_of avg p))
     = tier_of ((price p - avg) / avg * 100).
Proof.
  unfold analysis_of, tier_of.
  destruct (classify _) as [[g t] y]. repeat split.
Qed.


Lemma analyses_products (avg : Q) (ps : list ProductData) :
  map product (map (analysis_of avg) ps) = ps.
Proof.
  induction ps as [|p ps IH]; [reflexivity|].
  cbn [map]. rewrite IH.
  now destruct (analysis_of_fields avg p) as (-> & _).
Qed.




(** ** Tiers and prices *)

(** Above a positive average, the percentage is at most [c] exactly when
    the price is at most [1 + c/100] times the average. *)
Lemma percent_le_iff (avg p c : Q) :
  (0 < avg)%Q ->
  ((p - avg) / avg * 100 <= c)%Q <-> (p <= (1 + c / 100) * avg)%Q.
Proof.
  intros Havg.
  assert (E : ((p - avg) / avg * 100 == (p - avg) * 100 / avg)%Q)
    by (field; lra).
  assert (G : ((1 + c / 100) * avg == avg + (1 # 100) * (c * avg))%Q) by field.
  rewrite E, G. clear E G. split; intros H.
  - apply (Qmult_le_r _ _ avg Havg) in H.
    assert (F : ((p - avg) * 100 / avg * avg == (p - avg) * 100)%Q)
      by (field; lra).
    rewrite F in H. clear F. lra.
  - apply Qle_shift_div_r; [exact Havg|]. lra.
Qed.

Lemma analysis_of_band (avg : Q) (p : ProductData) :
  (0 < avg)%Q -> in_price_band avg (analysis_of avg p).
Proof.
  intros Havg.
  destruct (analysis_of_fields avg p) as (Ep & _ & _ & T).
  unfold in_price_band. rewrite Ep.
  set (pd := ((price p - avg) / avg * 100)%Q) in *.
  pose proof (percent_le_iff avg (price p) (-15) Havg) as B1.
  pose proof (percent_le_iff avg (price p) (-5) Havg) as B2.
  pose proof (percent_le_iff avg (price p) 5 Havg) as B3.
  fold pd in B1, B2, B3.
  assert (C1 : ((1 + -15 / 100) * avg == (85 # 100) * avg)%Q) by field.
  assert (C2 : ((1 + -5 / 100) * avg == (95 # 100) * avg)%Q) by field.
  assert (C3 : ((1 + 5 / 100) * avg == (105 # 100) * avg)%Q) by field.
  rewrite C1 in B1. rewrite C2 in B2. rewrite C3 in B3.
  unfold tier_of, classify in T.
  destruct (Qle_bool pd (-15)) eqn:E1;
    [apply Qle_bool_iff in E1 | apply Qle_bool_false in E1];
  (destruct (Qle_bool pd (-5)) eqn:E2;
    [apply Qle_bool_iff in E2 | apply Qle_bool_false in E2]);
  (destruct (Qle_bool pd 5) eqn:E3;
    [apply Qle_bool_iff in E3 | apply Qle_bool_false in E3]);
  cbn [fst] in T; injection T as -> ->;
  try (exfalso; lra);
  repeat split; intros; try discriminate; try reflexivity;
  try (apply B1; lra); try (apply B2; lra); try (apply B3; lra);
  try (apply Qnot_le_lt; intros N; apply B1 in N; lra);
  try (apply Qnot_le_lt; intros N; apply B2 in N; lra);
  try (apply Qnot_le_lt; intros N; apply B3 in N; lra);
  try (exfalso; destruct_and?;
       match goal with
       | H : (_ <= _ * avg)%Q |- _ =>
           first [apply B1 in H | apply B2 in H | apply B3 in H]; lra
       | H : (_ * avg < _)%Q |- _ =>
           apply Qlt_not_le in H; apply H;
           first [apply B1 | apply B2 | apply B3]; lra
       end).
Qed.

Lemma in_price_band_compat (m m' : Q) (a : DealAnalysis) :
  (m == m')%Q -> in_price_band m a -> in_price_band m' a.
Proof.
  unfold in_price_band. intros E H. cbn zeta in *.
  setoid_rewrite <- E. exact H.
Qed.

Lemma mean_nil_not_positive : ~ (0 < mean [])%Q.
Proof. intros H. vm_compute in H. discriminate H. Qed.

(** The outcome of [analyze_deals] on a batch of positive average. *)
Lemma analyze_deals_positive (w : World) (l : loc) (ps : list ProductData) :
  heap w !! l = Some (ProductList ps) ->
  (0 < mean (map price ps))%Q ->
  exists avg : Q,
    (avg == mean (map price ps))%Q
    /\ ps <> []
    /\ analyze_deals l w
       = (Ok (fresh (dom (heap w))),
          set_heap (<[fresh (dom (heap w))
                      := AnalysisList (map (analysis_of avg) ps)]> (heap w)) w).
Proof.
  intros Hl Hm.
  assert (Hne : ps <> []).
  { intros ->. now apply mean_nil_not_positive. }
  exists (py_sum (map price ps)
          / inject_Z (Z.of_nat (List.length (map price ps))))%Q.
  split; [apply batch_average_is_mean|]. split; [exact Hne|].
  rewrite (analyze_deals_eq _ _ _ Hl), (analyze_batch_ok ps Hne); [reflexivity|].
  rewrite batch_average_is_mean. lra.
Qed.

(** The analyses of a batch of positive average lie in the price bands of
    their tiers. *)
Lemma batch_price_bands (w : World) (l : loc) (ps : list ProductData) :
  heap w !! l = Some (ProductList ps) ->
  (0 < mean (map price ps))%Q ->
  exists (l' : loc) (xs : list DealAnalysis),
    analyze_deals l w
      = (Ok l', set_heap (<[l' := AnalysisList xs]> (heap w)) w)
    /\ map product xs = ps
    /\ Forall (in_price_band (mean (map price ps))) xs.
Proof.
  intros Hl Hm.
  destruct (analyze_deals_positive w l ps Hl Hm) as (avg & Eavg & _ & Hrun).
  eexists _, _. split; [exact Hrun|]. split; [apply analyses_products|].
  assert (Havg : (0 < avg)%Q) by (rewrite Eavg; exact Hm).
  clear Hrun Hl. set (m := mean (map price ps)) in *. clearbody m.
  induction ps as [|p ps IH]; constructor; [|exact IH].
  apply (in_price_band_compat avg); [exact Eavg|].
  now apply analysis_of_band.
Qed.



Lemma band_monotone (m : Q) (a b : DealAnalysis) :
  (0 < m)%Q ->
  in_price_band m a -> in_price_band m b ->
  (price (product a) <= price (product b))%Q ->
  tier_rank (deal_quality a) <= tier_rank (deal_quality b)
  /\ (is_good_deal b = true -> is_good_deal a = true).
Proof.
  unfold in_price_band. cbn zeta.
  intros Hm (Ga & Ea & Da & Aa & Pa) (Gb & Eb & Db & Ab & Pb) Hle.
  split.
  - destruct (deal_quality a) eqn:Qa, (deal_quality b) eqn:Qb;
      cbn [tier_rank]; try lia; exfalso;
      repeat match goal with
             | H : ?x = ?x <-> _ |- _ => pose proof (proj1 H eq_refl); clear H
             | H : _ = _ <-> _ |- _ => clear H
             end;
      destruct_and?; lra.
  - intros Hb. apply Ga. apply Gb in Hb. lra.
Qed.

(** X3. Within one batch of positive average price, a product that is
    not dearer than another is not rated worse than it, and is a good
    deal whenever the other one is. *)
Theorem analyze_deals_monotone (w : World) (l : loc) (ps : list ProductData) :
  heap w !! l = Some (ProductList ps) ->
  (0 < mean (map price ps))%Q ->
  exists (l' : loc) (xs : list DealAnalysis),
    analyze_deals l w
      = (Ok l', set_heap (<[l' := AnalysisList xs]> (heap w)) w)
    /\ forall a b, In a xs -> In b xs ->
         (price (product a) <= price (product b))%Q ->
         tier_rank (deal_quality a) <= tier_rank (deal_quality b)
         /\ (is_good_deal b = true -> is_good_deal a = true).
Proof.
  intros Hl Hm.
  destruct (batch_price_bands w l ps Hl Hm) as (l' & xs & Hrun & _ & B).
  exists l', xs. split; [exact Hrun|].
  rewrite List.Forall_forall in B.
  intros a b Ha Hb. apply (band_monotone (mean (map price ps))); auto.
Qed.

Lemma analyze_deals_monotone_witness :
  heap (world_with (ProductList scenario_batch)) !! 0%nat
    = Some (ProductList scenario_batch)
  /\ (0 < mean (map price scenario_batch))%Q
  /\ exists (l' : loc) (xs : list DealAnalysis),
       analyze_deals 0%nat (world_with (ProductList scenario_batch))
         = (Ok l', set_heap (<[l' := AnalysisList xs]>
                               (heap (world_with (ProductList scenario_batch))))
                            (world_with (ProductList scenario_batch)))
       /\ forall a b, In a xs -> In b xs ->
            (price (product a) <= price (product b))%Q ->
            tier_rank (deal_quality a) <= tier_rank (deal_quality b)
            /\ (is_good_deal b = true -> is_good_deal a = true).
Proof.
  split; [reflexivity|]. split; [reflexivity|].
  apply (analyze_deals_monotone
           (world_with (ProductList scenario_batch)) 0%nat scenario_batch);
    reflexivity.
Defined.

(** The mean is not below a lower bound of the numbers, and not above an
    upper bound. *)
Lemma total_lower (lo : Q) (qs : list Q) :
  (forall q, In q qs -> (lo <= q)%Q) ->
  (inject_Z (Z.of_nat (List.length qs)) * lo <= total qs)%Q.
Proof.
  induction qs as [|q qs IH]; intros H.
  - cbn [List.length total fold_right].
    change (inject_Z (Z.of_nat 0)) with 0%Q. lra.
  - cbn [List.length total fold_right]. fold (total qs).
    rewrite Nat2Z.inj_succ. unfold Z.succ. rewrite inject_Z_plus.
    change (inject_Z 1) with 1%Q.
    pose proof (H q (or_introl eq_refl)) as L.
    assert (IL := IH (fun r Hr => H r (or_intror Hr))). lra.
Qed.


Lemma length_positive {A : Type} (l : list A) :
  l <> [] -> (0 < inject_Z (Z.of_nat (List.length l)))%Q.
Proof.
  intros Hne. destruct l; [congruence|]. unfold Qlt. cbn. lia.
Qed.

Lemma mean_lower (lo : Q) (qs : list Q) :
  qs <> [] -> (forall q, In q qs -> (lo <= q)%Q) -> (lo <= mean qs)%Q.
Proof.
  intros Hne H. pose proof (total_lower lo qs H) as L.
  unfold mean. fold (total qs).
  apply Qle_shift_div_l; [now apply length_positive|]. lra.
Qed.




(** ** Reports *)

Lemma list_sort_sorted_id {A : Type} (key : A -> Q) (l : list A) :
  StronglySorted (key_le key) l -> list_sort key l = l.
Proof.
  induction 1 as [|x l Hs IH Hx]; [reflexivity|].
  cbn [list_sort foldr]. fold (list_sort key l). rewrite IH.
  destruct l as [|y l]; [reflexivity|].
  cbn [insert_by_key].
  inversion Hx as [|? ? Hxy _]; subst.
  assert (E : Num.Qltb (key y) (key x) = false).
  { apply (Qltb_false (key y) (key x)). exact Hxy. }
  now rewrite E.
Qed.

Lemma list_sort_idempotent {A : Type} (key : A -> Q) (l : list A) :
  list_sort key (list_sort key l) = list_sort key l.
Proof. apply list_sort_sorted_id, list_sort_sorted. Qed.

Lemma sorted_last_greatest {A : Type} (key : A -> Q) (l : list A) (z : A) :
  StronglySorted (key_le key) l -> last l = Some z ->
  In z l /\ forall a, In a l -> key_le key a z.
Proof.
  induction 1 as [|x l Hs IH Hx]; [discriminate|].
  destruct l as [|y l].
  - intros [= <-]. split; [now left|].
    intros a [<-|[]]. unfold key_le. lra.
  - intros Hz. change (last (x :: y :: l)) with (last (y :: l)) in Hz.
    destruct (IH Hz) as [Hin Hall]. split; [now right|].
    intros a [<-|Ha]; [|now apply Hall].
    rewrite List.Forall_forall in Hx. now apply Hx.
Qed.

Lemma last_is_Some {A : Type} (l : list A) : l <> [] -> exists z, last l = Some z.
Proof.
  induction l as [|x l IH]; [congruence|]. intros _.
  destruct l as [|y l]; [now exists x|].
  destruct IH as [z Hz]; [discriminate|]. now exists z.
Qed.

(** X5. Calling [generate_report] again on the list it has sorted leaves
    the list as it is and yields a report with the same list and the
    same summary; only the time stamp is the next reading of the
    clock. *)
Theorem generate_report_again (env : Env) (w : World) (l : loc)
    (xs : list DealAnalysis) :
  heap w !! l = Some (AnalysisList xs) ->
  xs <> [] ->
  exists (r1 r2 : Report) (w1 w2 : World),
    generate_report env l w = (Ok r1, w1)
    /\ generate_report env l w1 = (Ok r2, w2)
    /\ heap w2 = heap w1
    /\ analyses r2 = analyses r1
    /\ summary r2 = summary r1
    /\ generated_at r1 = time_at env (clock w)
    /\ generated_at r2 = time_at env (S (clock w)).
Proof.
  intros Hl Hne.
  pose proof (generate_report_eq env w l xs Hl) as E1. cbn zeta in E1.
  destruct (head (list_sort price_key xs)) as [best|] eqn:Hh.
  2:{ exfalso. apply Hne, (list_sort_nil_iff price_key).
      destruct (list_sort price_key xs); [reflexivity|discriminate]. }
  eexists _, _, _, _. split; [exact E1|].
  set (w1 := mkWorld _ _ _ _).
  assert (Hl1 : heap w1 !! l = Some (AnalysisList (list_sort price_key xs)))
    by apply lookup_insert_eq.
  pose proof (generate_report_eq env w1 l _ Hl1) as E2. cbn zeta in E2.
  rewrite list_sort_idempotent, Hh in E2.
  split; [exact E2|]. cbn [heap w1 analyses summary generated_at clock].
  split; [apply insert_insert_eq|]. repeat split.
Qed.

Lemma generate_report_again_witness :
  heap (world_with (AnalysisList tied_analyses)) !! 0%nat
    = Some (AnalysisList tied_analyses)
  /\ tied_analyses <> []
  /\ exists (r1 r2 : Report) (w1 w2 : World),
       generate_report shop_env 0%nat (world_with (AnalysisList tied_analyses))
         = (Ok r1, w1)
       /\ generate_report shop_env 0%nat w1 = (Ok r2, w2)
       /\ heap w2 = heap w1
       /\ analyses r2 = analyses r1
       /\ summary r2 = summary r1
       /\ generated_at r1
          = time_at shop_env (clock (world_with (AnalysisList tied_analyses)))
       /\ generated_at r2
          = time_at shop_env
              (S (clock (world_with (AnalysisList tied_analyses)))).
Proof.
  split; [reflexivity|]. split; [discriminate|].
  apply (generate_report_again shop_env
           (world_with (AnalysisList tied_analyses)) 0%nat tied_analyses).
  - reflexivity.
  - discriminate.
Defined.



(** ** Displaying a report *)

Lemma display_entries_length (xs : list DealAnalysis) :
  List.length (flat_map display_entry xs) = 4 * List.length xs.
Proof.
  induction xs as [|a xs IH]; [reflexivity|].
  cbn [flat_map List.length display_entry app]. rewrite IH. lia.
Qed.

Lemma head_last_nonempty {A : Type} (xs : list A) :
  xs <> [] -> exists x z, head xs = Some x /\ last xs = Some z.
Proof.
  intros Hne. destruct (last_is_Some xs Hne) as [z Hz].
  destruct xs as [|x xs]; [congruence|]. now exists x, z.
Qed.

(** X7. [display_report] raises [IndexError] exactly when the list of
    the report is empty, and then only after the heading, the summary
    and the title of the recommendation have been printed: 9 lines.  On
    a list of [n] analyses it prints [12 + 4 * n] lines and raises
    nothing. *)
Theorem display_report_outcome (tf : TimeFormat) (report : Report) (w : World)
    (xs : list DealAnalysis) :
  heap w !! analyses report = Some (AnalysisList xs) ->
  exists lines : list string,
    firstn 7 lines = display_header tf report
    /\ ((xs = [] /\ display_report tf report w = (lines, Raise IndexError)
         /\ List.length lines = 9)
        \/ (xs <> [] /\ display_report tf report w = (lines, Ok tt)
            /\ List.length lines = 12 + 4 * List.length xs)).
Proof.
  intros Hl. unfold display_report. rewrite Hl.
  destruct xs as [|x xs].
  - eexists. split; [|left; split; [reflexivity|split; reflexivity]].
    reflexivity.
  - destruct (head_last_nonempty (x :: xs)) as (b & z & Hb & Hz); [discriminate|].
    rewrite Hb, Hz. eexists. split; cycle 1.
    + right. split; [discriminate|]. split; [reflexivity|].
      rewrite !length_app, display_entries_length.
      cbn [List.length display_header display_recommendation]. lia.
    + reflexivity.
Qed.

Lemma display_report_outcome_witness :
  heap (world_with (AnalysisList tied_analyses))
    !! analyses (mkReport 0%nat 0%Z "Analyzed 4 listings.")
    = Some (AnalysisList tied_analyses)
  /\ exists lines : list string,
       firstn 7 lines
         = display_header plain_time (mkReport 0%nat 0%Z "Analyzed 4 listings.")
       /\ ((tied_analyses = []
            /\ display_report plain_time (mkReport 0%nat 0%Z "Analyzed 4 listings.")
                 (world_with (AnalysisList tied_analyses))
               = (lines, Raise IndexError)
            /\ List.length lines = 9)
           \/ (tied_analyses <> []
               /\ display_report plain_time
                    (mkReport 0%nat 0%Z "Analyzed 4 listings.")
                    (world_with (AnalysisList tied_analyses))
                  = (lines, Ok tt)
               /\ List.length lines = 12 + 4 * List.length tied_analyses)).
Proof.
  split; [reflexivity|].
  apply (display_report_outcome plain_time
           (mkReport 0%nat 0%Z "Analyzed 4 listings.")
           (world_with (AnalysisList tied_analyses)) tied_analyses).
  reflexivity.
Defined.

(** X8. Displayed after [generate_report], a report ends with the
    recommendation for an entry of least price, and the saving it states
    is the greatest price less the least one, hence not negative. *)
Theorem display_after_generate (env : Env) (tf : TimeFormat) (w : World)
    (l : loc) (xs : list DealAnalysis) :
  heap w !! l = Some (AnalysisList xs) ->
  xs <> [] ->
  exists (r : Report) (w' : World) (front : list string)
         (best worst : DealAnalysis),
    generate_report env l w = (Ok r, w')
    /\ display_report tf r w'
       = ((front ++ display_recommendation best worst)%list, Ok tt)
    /\ In best xs /\ In worst xs
    /\ (forall a, In a xs ->
          (price (product best) <= price (product a))%Q
          /\ (price (product a) <= price (product worst))%Q)
    /\ (0 <= price (product worst) - price (product best))%Q.
Proof.
  intros Hl Hne.
  pose proof (generate_report_eq env w l xs Hl) as E. cbn zeta in E.
  pose proof (list_sort_perm price_key xs) as P.
  pose proof (list_sort_sorted price_key xs) as S.
  assert (Hs : list_sort price_key xs <> []).
  { intros N. apply Hne. now apply (list_sort_nil_iff price_key). }
  destruct (head_last_nonempty _ Hs) as (best & worst & Hb & Hz).
  rewrite Hb in E.
  destruct (list_sort_head_least price_key xs best Hb) as [Hbin Hmin].
  destruct (sorted_last_greatest price_key _ worst S Hz) as [Hzin Hmax].
  eexists _, _, _, best, worst. split; [exact E|].
  split.
  { unfold display_report. cbn [analyses heap].
    rewrite lookup_insert_eq, Hb, Hz. rewrite app_assoc. reflexivity. }
  split; [exact Hbin|].
  split; [eapply Permutation_in; [symmetry; exact P|exact Hzin]|].
  assert (Hall : forall a, In a xs ->
            (price (product best) <= price (product a))%Q
            /\ (price (product a) <= price (product worst))%Q).
  { intros a Ha. split; [now apply Hmin|].
    apply Hmax. eapply Permutation_in; [exact P|exact Ha]. }
  split; [exact Hall|].
  destruct (Hall best Hbin) as [_ U]. lra.
Qed.

Lemma display_after_generate_witness :
  heap (world_with (AnalysisList tied_analyses)) !! 0%nat
    = Some (AnalysisList tied_analyses)
  /\ tied_analyses <> []
  /\ exists (r : Report) (w' : World) (front : list string)
            (best worst : DealAnalysis),
       generate_report quiet_env 0%nat (world_with (AnalysisList tied_analyses))
         = (Ok r, w')
       /\ display_report plain_time r w'
          = ((front ++ display_recommendation best worst)%list, Ok tt)
       /\ In best tied_analyses /\ In worst tied_analyses
       /\ (forall a, In a tied_analyses ->
             (price (product best) <= price (product a))%Q
             /\ (price (product a) <= price (product worst))%Q)
       /\ (0 <= price (product worst) - price (product best))%Q.
Proof.
  split; [reflexivity|]. split; [discriminate|].
  apply (display_after_generate quiet_env plain_time
           (world_with (AnalysisList tied_analyses)) 0%nat tied_analyses).
  - reflexivity.
  - discriminate.
Defined.

(** ** Sources *)

Lemma split_length (sep : ascii) (s : string) :
  List.length (Str.split sep s) = S (count_char sep s).
Proof.
  induction s as [|c s IH]; [reflexivity|].
  cbn [Str.split count_char].
  destruct (Ascii.eqb c sep).
  - cbn [List.length]. now rewrite IH.
  - destruct (Str.split sep s) as [|h t]; [discriminate|].
    cbn [List.length] in *. lia.
Qed.

(** X9. The store name is the third piece of the URL cut at its
    slashes: [store_name_of] raises [IndexError] exactly for a URL with
    fewer than two slashes.  For such a URL [scrape_store] issues the
    request and then returns no record, whatever the response. *)
Theorem store_name_needs_two_slashes (u : string) :
  (store_name_of u = Raise IndexError <-> count_char "/" u < 2)
  /\ (2 <= count_char "/" u -> exists name, store_name_of u = Ok name)
  /\ (count_char "/" u < 2 ->
      forall env product_query w,
        scrape_store env u product_query w
        = (Ok [], mkWorld (heap w) (clock w) (draws w) (requests w ++ [u]))).
Proof.
  pose proof (split_length "/" u) as L.
  assert (A : store_name_of u = Raise IndexError <-> count_char "/" u < 2).
  { unfold store_name_of.
    destruct (nth_error (Str.split "/" u) 2) as [host|] eqn:N.
    - split; [discriminate|]. intros H.
      assert (2 < List.length (Str.split "/" u))
        by (apply nth_error_Some; congruence).
      lia.
    - split; [|reflexivity]. intros _.
      apply nth_error_None in N. lia. }
  split; [exact A|]. split.
  - intros H. unfold store_name_of in *.
    destruct (nth_error (Str.split "/" u) 2) as [host|] eqn:N; [now eexists|].
    apply nth_error_None in N. lia.
  - intros H env product_query w. apply A in H.
    rewrite scrape_store_eq. unfold after_source, source_records.
    rewrite H. destruct (http_get env _ u); cbn [List.length];
      now rewrite Nat.add_0_r.
Qed.

Lemma stamp_times (env : Env) (store_name u : string) (fields : list (string * Q)) :
  forall k,
    map scraped_at (stamp env store_name u k fields)
    = map (time_at env) (seq k (List.length fields)).
Proof.
  induction fields as [|[name q] rest IH]; intros k; [reflexivity|].
  cbn [stamp map List.length seq scraped_at]. now rewrite IH.
Qed.

Lemma stamp_urls (env : Env) (store_name u : string) (fields : list (string * Q)) :
  forall k, Forall (fun p => url p = u) (stamp env store_name u k fields).
Proof.
  induction fields as [|[name q] rest IH]; intros k; constructor.
  - reflexivity.
  - apply IH.
Qed.

Lemma source_records_times (env : Env) (u : string) (w : World) :
  map scraped_at (source_records env u w)
  = map (time_at env) (seq (clock w) (List.length (source_records env u w))).
Proof.
  unfold source_records.
  destruct (http_get env _ u) as [soup|e]; [|reflexivity].
  destruct (store_name_of u) as [name|e]; [|reflexivity].
  now rewrite stamp_times, stamp_length.
Qed.

Lemma source_records_urls (env : Env) (u : string) (w : World) :
  Forall (fun p => url p = u) (source_records env u w).
Proof.
  unfold source_records.
  destruct (http_get env _ u) as [soup|e]; [|constructor].
  destruct (store_name_of u) as [name|e]; [|constructor].
  apply stamp_urls.
Qed.

Lemma collected_facts (env : Env) (urls : list string) :
  forall w,
    List.length (collected env urls w) <= 10 * List.length urls
    /\ clock (after_sources env urls w)
       = clock w + List.length (collected env urls w)
    /\ draws (after_sources env urls w) = draws w
    /\ map scraped_at (collected env urls w)
       = map (time_at env) (seq (clock w) (List.length (collected env urls w)))
    /\ Forall (fun p => In (url p) urls) (collected env urls w).
Proof.
  induction urls as [|u rest IH]; intros w.
  - cbn [collected after_sources List.length seq map].
    split; [lia|]. split; [lia|]. split; [reflexivity|].
    split; [reflexivity|constructor].
  - cbn [collected after_sources List.length].
    destruct (IH (after_source env u w)) as (B & C & D & T & U).
    pose proof (source_records_bound env u w) as B0.
    rewrite length_app. cbn [clock draws after_source] in *.
    split; [lia|]. split; [lia|]. split; [exact D|]. split.
    + rewrite map_app, source_records_times, T, seq_app, map_app.
      reflexivity.
    + apply Forall_app. split.
      * eapply Forall_impl; [apply source_records_urls|].
        cbn beta. intros p ->. now left.
      * eapply Forall_impl; [exact U|]. cbn beta. intros p Hp. now right.
Qed.

(** X10. The list [scrape_multiple_stores] returns holds at most 10
    records per URL; each record carries one of the URLs given, and the
    records are stamped, in their order, with consecutive readings of the
    clock, which is read once per record.  One request is issued per URL
    and no random number is drawn. *)
Theorem scrape_multiple_stores_bounds (env : Env) (w : World) (l : loc)
    (urls : list string) (product_query : string) :
  heap w !! l = Some (UrlList urls) ->
  exists (l' : loc) (w' : World) (ps : list ProductData),
    scrape_multiple_stores env l product_query w = (Ok l', w')
    /\ heap w' !! l' = Some (ProductList ps)
    /\ List.length ps <= 10 * List.length urls
    /\ Forall (fun p => In (url p) urls) ps
    /\ map scraped_at ps
       = map (time_at env) (seq (clock w) (List.length ps))
    /\ clock w' = clock w + List.length ps
    /\ List.length (requests w') = List.length (requests w) + List.length urls
    /\ draws w' = draws w.
Proof.
  intros Hl.
  destruct (collected_facts env urls w) as (B & C & D & T & U).
  eexists _, _, (collected env urls w). split.
  { unfold scrape_multiple_stores, mbind, M_bind.
    rewrite (read_urls_eq _ _ _ Hl), scrape_urls_eq. cbn [List.app].
    unfold alloc. reflexivity. }
  cbn [heap clock draws requests set_heap].
  split; [apply lookup_insert_eq|]. split; [exact B|].
  split; [exact U|]. split; [exact T|]. split; [exact C|].
  split; [|exact D].
  rewrite after_sources_requests, length_app. reflexivity.
Qed.

Lemma scrape_multiple_stores_bounds_witness :
  heap (world_with (UrlList shop_sources)) !! 0%nat = Some (UrlList shop_sources)
  /\ exists (l' : loc) (w' : World) (ps : list ProductData),
       scrape_multiple_stores shop_env 0%nat "tv" (world_with (UrlList shop_sources))
         = (Ok l', w')
       /\ heap w' !! l' = Some (ProductList ps)
       /\ List.length ps <= 10 * List.length shop_sources
       /\ Forall (fun p => In (url p) shop_sources) ps
       /\ map scraped_at ps
          = map (time_at shop_env)
              (seq (clock (world_with (UrlList shop_sources))) (List.length ps))
       /\ clock w' = clock (world_with (UrlList shop_sources)) + List.length ps
       /\ List.length (requests w')
          = List.length (requests (world_with (UrlList shop_sources)))
            + List.length shop_sources
       /\ draws w' = draws (world_with (UrlList shop_sources)).
Proof.
  split; [reflexivity|].
  apply (scrape_multiple_stores_bounds shop_env
           (world_with (UrlList shop_sources)) 0%nat shop_sources "tv").
  reflexivity.
Defined.

(** ** Texts read off a page *)
















(** ** The console *)



(** ** Runs of [main] *)

Section MainFacts.

Variable env : Env.
Variable tf : TimeFormat.
Variable can_open : string -> bool.

Lemma report_on_empty (l : loc) (os : Os) (w : World) :
  heap w !! l = Some (ProductList []) ->
  report_on env tf can_open l os w = (NoData, os, w).
Proof.
  intros Hl. unfold report_on. now rewrite (read_products_eq _ _ _ Hl).
Qed.

Lemma report_on_zero_average (l : loc) (os : Os) (w : World)
    (ps : list ProductData) :
  heap w !! l = Some (ProductList ps) ->
  ps <> [] ->
  (mean (map price ps) == 0)%Q ->
  report_on env tf can_open l os w = (Failed (Exn ZeroDivisionError) [], os, w).
Proof.
  intros Hl Hne Hz. unfold report_on. rewrite (read_products_eq _ _ _ Hl).
  destruct ps as [|p ps]; [congruence|].
  rewrite (analyze_deals_eq _ _ _ Hl).
  now rewrite (analyze_batch_zero_average (p :: ps) Hne Hz).
Qed.

Lemma report_on_data (l : loc) (os : Os) (w : World) (ps : list ProductData) :
  heap w !! l = Some (ProductList ps) ->
  ps <> [] ->
  ~ (mean (map price ps) == 0)%Q ->
  exists (report : Report) (shown : list string) (ys : list DealAnalysis)
         (w2 : World) (good : nat) (best : DealAnalysis),
    report_on env tf can_open l os w
    = (fst (after_display tf can_open report shown ys os),
       snd (after_display tf can_open report shown ys os), w2)
    /\ heap w2 !! analyses report = Some (AnalysisList ys)
    /\ Permutation ps (map product ys)
    /\ summary report = summary_text (List.length ps) good best
    /\ List.length shown = 12 + 4 * List.length ps
    /\ clock w2 = S (clock w)
    /\ requests w2 = requests w.
Proof.
  intros Hl Hne Hm.
  set (avg := (py_sum (map price ps)
               / inject_Z (Z.of_nat (List.length (map price ps))))%Q).
  assert (Havg : ~ (avg == 0)%Q).
  { unfold avg. now rewrite batch_average_is_mean. }
  set (xs := map (analysis_of avg) ps).
  set (l1 := fresh (dom (heap w))).
  set (w1 := set_heap (<[l1 := AnalysisList xs]> (heap w)) w).
  assert (Hrun : analyze_deals l w = (Ok l1, w1)).
  { rewrite (analyze_deals_eq _ _ _ Hl), (analyze_batch_ok ps Hne Havg).
    reflexivity. }
  assert (Hl1 : heap w1 !! l1 = Some (AnalysisList xs)) by apply lookup_insert_eq.
  assert (Hxs : xs <> []).
  { unfold xs. destruct ps; [congruence|discriminate]. }
  pose proof (generate_report_eq env w1 l1 xs Hl1) as E2. cbn zeta in E2.
  set (ys := list_sort price_key xs) in *.
  assert (Hys : ys <> []).
  { intros N. apply Hxs. now apply (list_sort_nil_iff price_key). }
  destruct (head_last_nonempty ys Hys) as (best & worst & Hb & Hz).
  rewrite Hb in E2.
  set (report := mkReport l1 _ _) in E2. set (w2 := mkWorld _ _ _ _) in E2.
  assert (Hl2 : heap w2 !! analyses report = Some (AnalysisList ys))
    by apply lookup_insert_eq.
  assert (Hlen : List.length ys = List.length ps).
  { unfold ys. rewrite <- (Permutation_length (list_sort_perm price_key xs)).
    unfold xs. apply length_map. }
  set (shown := (display_header tf report ++ flat_map display_entry ys
                 ++ [rule; (nl ++ "💡 RECOMMENDATION:")%string]
                 ++ display_recommendation best worst)%list).
  assert (Hshow : display_report tf report w2 = (shown, Ok tt)).
  { unfold display_report. rewrite Hl2, Hb, Hz. unfold shown.
    now rewrite <- !app_assoc. }
  exists report, shown, ys, w2,
    (List.length (List.filter is_good_deal ys)), best.
  split.
  { unfold report_on. rewrite (read_products_eq _ _ _ Hl).
    destruct ps as [|p ps]; [congruence|].
    rewrite Hrun, E2, Hshow. unfold after_display, input, export_to_file.
    destruct (stdin os) as [|answer rest]; [reflexivity|].
    cbn [stdin files]. destruct (says_yes answer); [|reflexivity].
    rewrite Hl2. destruct (can_open "price_report.txt"); reflexivity. }
  split; [exact Hl2|]. split.
  { unfold ys. rewrite <- (list_sort_perm price_key xs). unfold xs.
    now rewrite analyses_products. }
  split.
  { unfold report. cbn [summary]. now rewrite Hlen. }
  split.
  { unfold shown. rewrite !length_app, display_entries_length, Hlen.
    cbn [List.length display_header display_recommendation]. lia. }
  split; reflexivity.
Qed.

Lemma report_on_failure (l : loc) (os : Os) (w : World) (ps : list ProductData)
    (e : exn) (shown : list string) :
  heap w !! l = Some (ProductList ps) ->
  fst (fst (report_on env tf can_open l os w)) = Failed (Exn e) shown ->
  e = ZeroDivisionError /\ shown = [] /\ ps <> []
  /\ (mean (map price ps) == 0)%Q.
Proof.
  intros Hl H. destruct ps as [|p ps].
  { rewrite (report_on_empty l os w Hl) in H. discriminate. }
  destruct (Qeq_dec (mean (map price (p :: ps))) 0) as [Hz|Hnz].
  - rewrite (report_on_zero_average l os w (p :: ps) Hl) in H;
      [|discriminate|exact Hz].
    cbn [fst] in H. injection H as <- <-. repeat split; [discriminate|exact Hz].
  - destruct (report_on_data l os w (p :: ps) Hl) as
      (report & shown' & ys & w2 & good & best & E & _); [discriminate|exact Hnz|].
    rewrite E in H. cbn [fst] in H. unfold after_display in H.
    destruct (stdin os) as [|answer rest]; [discriminate|].
    destruct (says_yes answer); [|discriminate].
    destruct (can_open "price_report.txt"); discriminate.
Qed.

Lemma scrape_multiple_stores_eq (w : World) (l : loc) (urls : list string)
    (product_query : string) :
  heap w !! l = Some (UrlList urls) ->
  scrape_multiple_stores env l product_query w
  = (Ok (fresh (dom (heap w))),
     set_heap (<[fresh (dom (heap w)) := ProductList (collected env urls w)]>
                 (heap w))
              (after_sources env urls w)).
Proof.
  intros Hl. unfold scrape_multiple_stores, mbind, M_bind.
  rewrite (read_urls_eq _ _ _ Hl), scrape_urls_eq. cbn [List.app].
  unfold alloc. now rewrite after_sources_heap.
Qed.

Lemma collected_set_heap (h : gmap loc PyList) (urls : list string) :
  forall w,
    collected env urls (set_heap h w) = collected env urls w
    /\ after_sources env urls (set_heap h w)
       = set_heap h (after_sources env urls w).
Proof.
  induction urls as [|u rest IH]; intros w; [now split|].
  cbn [collected after_sources].
  assert (E : after_source env u (set_heap h w)
              = set_heap h (after_source env u w)) by reflexivity.
  rewrite E. destruct (IH (after_source env u w)) as [-> ->].
  now split.
Qed.

(** [main] in mock mode, up to the part that reports. *)
Lemma main_mock (name answer : string) (lines : list string)
    (fs : gmap string string) (w : World) :
  says_yes answer = true ->
  main env tf can_open (mkOs (name :: answer :: lines) fs) w
  = report_on env tf can_open (fresh (dom (heap w))) (mkOs lines fs)
      (mkWorld (<[fresh (dom (heap w))
                  := ProductList (mock_records env name (draws w) (clock w)
                                    mock_stores)]> (heap w))
               (clock w + 5) (draws w + 5) (requests w)).
Proof.
  intros Hy. unfold main, input. cbn [stdin files]. rewrite Hy.
  now rewrite get_mock_data_eq.
Qed.

(** [main] in real mode, up to the part that reports. *)
Lemma main_real (name answer : string) (lines urls rest : list string)
    (fs : gmap string string) (w : World) :
  says_yes answer = false ->
  read_url_lines lines [] = Some (urls, rest) ->
  let l1 := fresh (dom (heap w)) in
  let h1 := <[l1 := UrlList urls]> (heap w) in
  let l2 := fresh (dom h1) in
  main env tf can_open (mkOs (name :: answer :: lines) fs) w
  = report_on env tf can_open l2 (mkOs rest fs)
      (set_heap (<[l2 := ProductList (collected env urls w)]> h1)
                (after_sources env urls w)).
Proof.
  intros Hn Hread l1 h1 l2. unfold main, input. cbn [stdin files].
  rewrite Hn, Hread. unfold alloc. fold l1. fold h1.
  rewrite (scrape_multiple_stores_eq (set_heap h1 w) l1 urls name)
    by apply lookup_insert_eq.
  cbn [heap set_heap]. fold l2.
  destruct (collected_set_heap h1 urls w) as [-> ->].
  reflexivity.
Qed.

Lemma main_real_eof (name answer : string) (lines : list string)
    (fs : gmap string string) (w : World) :
  says_yes answer = false ->
  read_url_lines lines [] = None ->
  main env tf can_open (mkOs (name :: answer :: lines) fs) w
  = (Failed EOFError [], mkOs [] fs, w).
Proof.
  intros Hn Hread. unfold main, input. cbn [stdin files].
  now rewrite Hn, Hread.
Qed.

End MainFacts.

(** X14. Of the exceptions of the agents, [main] can only end with
    [ZeroDivisionError], raised before anything of the report is
    displayed: [generate_report] and [display_report] are reached with
    at least one analysis, so neither [AttributeError] nor [IndexError]
    can arise. *)
Theorem main_only_zero_division (env : Env) (tf : TimeFormat)
    (can_open : string -> bool) (os : Os) (w : World) (e : exn)
    (shown : list string) :
  fst (fst (main env tf can_open os w)) = Failed (Exn e) shown ->
  e = ZeroDivisionError /\ shown = [].
Proof.
  destruct os as [lines fs]. destruct lines as [|name lines]; [discriminate|].
  destruct lines as [|answer lines]; [discriminate|].
  destruct (says_yes answer) eqn:Hy.
  - rewrite (main_mock env tf can_open name answer lines fs w Hy). intros H.
    eapply report_on_failure in H; [|apply lookup_insert_eq].
    now destruct H as (-> & -> & _).
  - destruct (read_url_lines lines []) as [[urls rest]|] eqn:Hread.
    + rewrite (main_real env tf can_open name answer lines urls rest fs w Hy Hread).
      cbn zeta. intros H.
      eapply report_on_failure in H; [|apply lookup_insert_eq].
      now destruct H as (-> & -> & _).
    + now rewrite (main_real_eof env tf can_open name answer lines fs w Hy Hread).
Qed.

Lemma main_only_zero_division_witness :
  fst (fst (main free_env plain_time (fun _ => true) real_run empty_world))
    = Failed (Exn ZeroDivisionError) []
  /\ ZeroDivisionError = ZeroDivisionError
  /\ @nil string = [].
Proof.
  assert (H : fst (fst (main free_env plain_time (fun _ => true) real_run
                          empty_world))
              = Failed (Exn ZeroDivisionError) [])
    by (vm_compute; reflexivity).
  split; [exact H|].
  exact (main_only_zero_division free_env plain_time (fun _ => true) real_run
           empty_world ZeroDivisionError [] H).
Defined.

(** X15. In real mode, when the URLs entered yield no record, [main]
    ends with the message that no data was collected: every URL has been
    requested, but no list of analyses has been created, the clock has
    not been read, and neither the export question nor a file follows. *)
Theorem main_without_data (env : Env) (tf : TimeFormat)
    (can_open : string -> bool) (name answer : string)
    (lines urls rest : list string) (fs : gmap string string) (w : World) :
  says_yes answer = false ->
  read_url_lines lines [] = Some (urls, rest) ->
  collected env urls w = [] ->
  exists w' : World,
    main env tf can_open (mkOs (name :: answer :: lines) fs) w
    = (NoData, mkOs rest fs, w')
    /\ requests w' = (requests w ++ urls)%list
    /\ clock w' = clock w
    /\ (forall l xs, heap w' !! l = Some (AnalysisList xs) ->
          heap w !! l = Some (AnalysisList xs)).
Proof.
  intros Hn Hread Hnone.
  rewrite (main_real env tf can_open name answer lines urls rest fs w Hn Hread).
  cbn zeta. rewrite Hnone.
  set (l1 := fresh (dom (heap w))).
  set (h1 := <[l1 := UrlList urls]> (heap w)).
  set (l2 := fresh (dom h1)).
  eexists. split; [apply report_on_empty, lookup_insert_eq|].
  cbn [requests clock heap set_heap].
  split; [apply after_sources_requests|]. split.
  - destruct (collected_facts env urls w) as (_ & C & _).
    rewrite C, Hnone. cbn [List.length]. lia.
  - intros l xs H.
    destruct (decide (l = l2)) as [->|N2].
    { rewrite lookup_insert_eq in H. discriminate. }
    rewrite lookup_insert_ne in H by congruence. unfold h1 in H.
    destruct (decide (l = l1)) as [->|N1].
    { rewrite lookup_insert_eq in H. discriminate. }
    now rewrite lookup_insert_ne in H by congruence.
Qed.

Lemma main_without_data_witness :
  says_yes "n" = false
  /\ read_url_lines ["https://down.example/tv"; "  "; "y"] []
     = Some (["https://down.example/tv"], ["y"])
  /\ collected quiet_env ["https://down.example/tv"] empty_world = []
  /\ exists w' : World,
       main quiet_env plain_time (fun _ => true)
         (mkOs ["tv"; "n"; "https://down.example/tv"; "  "; "y"] ∅) empty_world
       = (NoData, mkOs ["y"] ∅, w')
       /\ requests w' = (requests empty_world ++ ["https://down.example/tv"])%list
       /\ clock w' = clock empty_world
       /\ (forall l xs, heap w' !! l = Some (AnalysisList xs) ->
             heap empty_world !! l = Some (AnalysisList xs)).
Proof.
  split; [reflexivity|]. split; [reflexivity|]. split; [reflexivity|].
  apply (main_without_data quiet_env plain_time (fun _ => true) "tv" "n"
           ["https://down.example/tv"; "  "; "y"] ["https://down.example/tv"]
           ["y"] ∅ empty_world); reflexivity.
Defined.

Lemma positive_prices_mean (ps : list ProductData) :
  ps <> [] ->
  Forall (fun p => (24999 # 100 <= price p)%Q /\ (price p <= 34999 # 100)%Q) ps ->
  (0 < mean (map price ps))%Q.
Proof.
  intros Hne H.
  assert (L : (24999 # 100 <= mean (map price ps))%Q).
  { apply mean_lower; [destruct ps; [congruence|discriminate]|].
    intros q Hq. apply List.in_map_iff in Hq. destruct Hq as (p & <- & Hp).
    rewrite List.Forall_forall in H. now apply H. }
  lra.
Qed.

(** X16. In mock mode, with a random generator that yields numbers
    between 0 and 1, [main] always gets as far as displaying a report of
    the five listings, in 32 lines, without issuing any request; it then
    completes, having written the file [price_report.txt] if the export
    was asked for, or ends with [OSError] if that file cannot be
    opened. *)
Theorem main_mock_mode (env : Env) (tf : TimeFormat)
    (can_open : string -> bool) (name answer export : string)
    (rest : list string) (fs : gmap string string) (w : World) :
  says_yes answer = true ->
  (forall k, (0 <= random_at env k)%Q /\ (random_at env k <= 1)%Q) ->
  exists (report : Report) (shown : list string) (ys : list DealAnalysis)
         (w' : World),
    main env tf can_open (mkOs (name :: answer :: export :: rest) fs) w
    = (if says_yes export then
         if can_open "price_report.txt"
         then (Completed report shown true,
               mkOs rest (<["price_report.txt" := export_content tf report ys]> fs),
               w')
         else (Failed OSError shown, mkOs rest fs, w')
       else (Completed report shown false, mkOs rest fs, w'))
    /\ heap w' !! analyses report = Some (AnalysisList ys)
    /\ Permutation (map (fun a => store (product a)) ys) mock_stores
    /\ List.length shown = 32
    /\ requests w' = requests w.
Proof.
  intros Hy Hr.
  rewrite (main_mock env tf can_open name answer (export :: rest) fs w Hy).
  set (ps := mock_records env name (draws w) (clock w) mock_stores).
  set (l := fresh (dom (heap w))).
  set (w1 := mkWorld _ _ _ _).
  assert (Hl : heap w1 !! l = Some (ProductList ps)) by apply lookup_insert_eq.
  assert (Hne : ps <> []) by discriminate.
  assert (Hm : (0 < mean (map price ps))%Q).
  { apply positive_prices_mean; [exact Hne|].
    now apply mock_records_range. }
  destruct (report_on_data env tf can_open l (mkOs (export :: rest) fs) w1 ps Hl Hne)
    as (report & shown & ys & w2 & good & best & E & Hys & P & _ & Hlen & _ & Hreq).
  { lra. }
  exists report, shown, ys, w2. split.
  { rewrite E. unfold after_display. cbn [stdin files fst snd].
    destruct (says_yes export); [|reflexivity].
    destruct (can_open "price_report.txt"); reflexivity. }
  split; [exact Hys|]. split.
  { apply Permutation_sym.
    rewrite <- (mock_records_stores env name (draws w) (clock w) mock_stores).
    fold ps. rewrite <- (List.map_map product store ys).
    apply Permutation_map. exact P. }
  split; [exact Hlen|]. rewrite Hreq. reflexivity.
Qed.

Lemma main_mock_mode_witness :
  says_yes "Y" = true
  /\ (forall k, (0 <= random_at quiet_env k)%Q /\ (random_at quiet_env k <= 1)%Q)
  /\ exists (report : Report) (shown : list string) (ys : list DealAnalysis)
            (w' : World),
       main quiet_env plain_time (fun _ => true)
         (mkOs ["tv"; "Y"; "y"; "left over"] ∅) empty_world
       = (if says_yes "y" then
            if (fun _ : string => true) "price_report.txt"
            then (Completed report shown true,
                  mkOs ["left over"]
                    (<["price_report.txt" := export_content plain_time report ys]> ∅),
                  w')
            else (Failed OSError shown, mkOs ["left over"] ∅, w')
          else (Completed report shown false, mkOs ["left over"] ∅, w'))
       /\ heap w' !! analyses report = Some (AnalysisList ys)
       /\ Permutation (map (fun a => store (product a)) ys) mock_stores
       /\ List.length shown = 32
       /\ requests w' = requests empty_world.
Proof.
  assert (Hr : forall k, (0 <= random_at quiet_env k)%Q
                         /\ (random_at quiet_env k <= 1)%Q).
  { intros k. split; discriminate. }
  split; [reflexivity|]. split; [exact Hr|].
  exact (main_mock_mode quiet_env plain_time (fun _ => true) "tv" "Y" "y"
           ["left over"] ∅ empty_world eq_refl Hr).
Defined.

(** ** Tiers under changes of the batch *)





(** The average [analyze_deals] computes for the prices [qs]. *)
Lemma batch_average_total (qs : list Q) :
  (py_sum qs / inject_Z (Z.of_nat (List.length qs))
   == total qs / inject_Z (Z.of_nat (List.length qs)))%Q.
Proof. apply batch_average_is_mean. Qed.









